(** * ncart-backend: accounts, tokens and the order lifecycle

    A shallow embedding of the Express handlers of [app.js] that deal with
    users, bearer tokens and orders.  The two MongoDB collections are lists
    of documents (in insertion order), the Mongoose schemas are records whose
    optional paths are [option]s, every handler is a function from the
    request and the database to a response and the new database.  The clock
    ([new Date()], [Date.now()]), the ObjectId generator and the bcrypt salt
    are inputs of the handlers that use them. *)

From Stdlib Require Import List String Ascii ZArith Bool Lia PrimFloat.
From Stdlib Require Import Permutation Sorting.Sorted.
Import ListNotations.
Open Scope string_scope.
Open Scope list_scope.

(** ** Values *)

(** An ObjectId in its 24-digit lower-case hexadecimal form, which is also
    how it travels inside a token and how [Order.userId] (a [String])
    stores it.  Text from a request becomes an ObjectId by the driver's
    cast; the handlers of this part take their ids after that cast, the
    routes of the part on requests before the cast start from the text. *)
Definition ObjectId := string.

(** A JavaScript [Date]: milliseconds since the epoch.  The server's clock
    gives one; a number from a body is one only within the range of
    [validDate] below. *)
Definition Date := Z.

(** Schema type [Number]; the handlers only ever add 1 to one. *)
Definition Number := Z.

(** Schema types [Object] and [Array]: a value the handlers never inspect. *)
#[local] Unset Elimination Schemes.
Inductive Mixed : Type :=
| MNull
| MBool (b : bool)
| MNum (n : Z)
| MStr (s : string)
| MArr (l : list Mixed)
| MObj (l : list (string * Mixed)).
#[local] Set Elimination Schemes.

(** An Express response: [res.status(code).json(body)], or the error shape
    [res.status(code).json({ error })]. *)
Inductive Response (A : Type) : Type :=
| Json (code : Z) (body : A)
| Error (code : Z) (error : string).
Arguments Json {A} code body.
Arguments Error {A} code error.

Definition statusCode {A} (r : Response A) : Z :=
  match r with
  | Json code _ => code
  | Error code _ => code
  end.

(** ** Schemas *)

(** The nested path [cancellationReason] of the Order schema.  The same
    shape is what a request body carries under that key. *)
Record CancellationReason : Type := {
  reason : option string;
  comment : option string;
  cancelledAt : option Date
}.

Module Order.
Record t : Type := {
  _id : ObjectId;
  userId : option string;
  id : option string;
  date : option string;
  items : list Mixed;
  total : option Number;
  status : option string;
  tracking : option Mixed;
  paymentMethod : option string;
  address : option string;
  cancellationReason : option CancellationReason
}.
End Order.

Module User.
Record t : Type := {
  _id : ObjectId;
  firstName : option string;
  lastName : option string;
  email : string;
  password : string;
  phone : option string;
  dateOfBirth : option string;
  gender : option string;
  address : option string;
  city : option string;
  state : option string;
  zipCode : option string;
  country : option string;
  orders : Number;
  profileImage : option string;
  createdAt : Date
}.
End User.

(** The database: the [users] and [orders] collections. *)
Record Db : Type := {
  db_users : list User.t;
  db_orders : list Order.t
}.

Definition emptyDb : Db := {| db_users := []; db_orders := [] |}.

(** ** Collections *)

Section Collection.
Context {A : Type}.

(** [Model.findOne(filter)]: the first document that matches. *)
Definition findOne (filter : A -> bool) (docs : list A) : option A :=
  find filter docs.

(** The write half of [findOneAndUpdate]: the first match is replaced. *)
Fixpoint updateOne (filter : A -> bool) (upd : A -> A) (docs : list A) : list A :=
  match docs with
  | [] => []
  | d :: rest =>
      if filter d then upd d :: rest else d :: updateOne filter upd rest
  end.

(** [Model.findOneAndUpdate(filter, update, { new: true })]: the updated
    document (or [null]) and the collection afterwards. *)
Definition findOneAndUpdate (filter : A -> bool) (upd : A -> A) (docs : list A)
  : option A * list A :=
  match findOne filter docs with
  | None => (None, docs)
  | Some d => (Some (upd d), updateOne filter upd docs)
  end.
End Collection.

Definition findOrderById (i : ObjectId) (docs : list Order.t) : option Order.t :=
  findOne (fun o => Order._id o =? i) docs.

Definition findUserById (i : ObjectId) (docs : list User.t) : option User.t :=
  findOne (fun u => User._id u =? i) docs.

(** [doc.userId === owner], as the store compares a [String] path. *)
Definition isOwner (owner : string) (o : Order.t) : bool :=
  match Order.userId o with
  | Some u => u =? owner
  | None => false
  end.

(** ** Order updates *)

(** An update document over the paths the two order handlers set.  A key
    whose value is [undefined] is not part of the [$set] that reaches the
    store, so it is [None] here. *)
Record OrderUpdate : Type := {
  set_status : option string;
  set_tracking : option Mixed;
  set_cancellationReason : option CancellationReason
}.

Definition orElse {A} (new old : option A) : option A :=
  match new with
  | Some v => Some v
  | None => old
  end.

Definition applyUpdate (u : OrderUpdate) (o : Order.t) : Order.t :=
  {| Order._id := Order._id o;
     Order.userId := Order.userId o;
     Order.id := Order.id o;
     Order.date := Order.date o;
     Order.items := Order.items o;
     Order.total := Order.total o;
     Order.status := orElse (set_status u) (Order.status o);
     Order.tracking := orElse (set_tracking u) (Order.tracking o);
     Order.paymentMethod := Order.paymentMethod o;
     Order.address := Order.address o;
     Order.cancellationReason :=
       orElse (set_cancellationReason u) (Order.cancellationReason o) |}.

(** [{ ...cancellationReason, cancelledAt: new Date() }] *)
Definition stampCancellation (c : CancellationReason) (now : Date) : CancellationReason :=
  {| reason := reason c; comment := comment c; cancelledAt := Some now |}.

(** [status === 'Cancelled'] *)
Definition isCancelled (status : option string) : bool :=
  match status with
  | Some s => s =? "Cancelled"
  | None => false
  end.

(** The payload of a token, which a verified request carries as
    [req.user]: the two fields the handlers sign, and the issue and expiry
    times (seconds since the epoch) that [jwt.sign] adds. *)
Record Claims : Type := {
  c_userId : ObjectId;
  c_email : string;
  c_iat : Z;
  c_exp : Z
}.

(** Body of [PUT /api/orders/:id] and [PUT /api/admin/orders/:id], read at
    the types of the schema: a key is absent ([None]) or holds a value of
    its path's type; [cancellationReason], when present, is an object and
    so is truthy. *)
Record OrderStatusBody : Type := {
  b_status : option string;
  b_tracking : option Mixed;
  b_cancellationReason : option CancellationReason
}.

(** [updateData] of [PUT /api/orders/:id]. *)
Definition selfUpdateData (body : OrderStatusBody) (now : Date) : OrderUpdate :=
  let updateData :=
    {| set_status := b_status body;
       set_tracking := b_tracking body;
       set_cancellationReason := None |} in
  if isCancelled (b_status body) then
    match b_cancellationReason body with
    | Some c =>
        {| set_status := set_status updateData;
           set_tracking := set_tracking updateData;
           set_cancellationReason := Some (stampCancellation c now) |}
    | None => updateData
    end
  else updateData.

(** [updateData] of [PUT /api/admin/orders/:id]: [tracking] is not read. *)
Definition adminUpdateData (body : OrderStatusBody) (now : Date) : OrderUpdate :=
  let updateData :=
    {| set_status := b_status body;
       set_tracking := None;
       set_cancellationReason := None |} in
  if isCancelled (b_status body) then
    match b_cancellationReason body with
    | Some c =>
        {| set_status := set_status updateData;
           set_tracking := set_tracking updateData;
           set_cancellationReason := Some (stampCancellation c now) |}
    | None => updateData
    end
  else updateData.

Definition withOrders (db : Db) (docs : list Order.t) : Db :=
  {| db_users := db_users db; db_orders := docs |}.

Definition withUsers (db : Db) (docs : list User.t) : Db :=
  {| db_users := docs; db_orders := db_orders db |}.

(** The filter [{ _id: req.params.id, userId: req.user.userId }]. *)
Definition ownedBy (i : ObjectId) (owner : string) (o : Order.t) : bool :=
  (Order._id o =? i) && isOwner owner o.

(** [PUT /api/orders/:id], with [:id] cast to the ObjectId [i]. *)
Definition put_api_orders_id (user : Claims) (i : ObjectId) (body : OrderStatusBody)
    (now : Date) (db : Db) : Response Order.t * Db :=
  let updateData := selfUpdateData body now in
  match findOneAndUpdate (ownedBy i (c_userId user)) (applyUpdate updateData)
          (db_orders db) with
  | (None, _) => (Error 404 "Order not found", db)
  | (Some order, docs) => (Json 200 order, withOrders db docs)
  end.

(** [PUT /api/admin/orders/:id], with [:id] cast to the ObjectId [i]. *)
Definition put_api_admin_orders_id (user : Claims) (i : ObjectId)
    (body : OrderStatusBody) (now : Date) (db : Db) : Response Order.t * Db :=
  let updateData := adminUpdateData body now in
  match findOneAndUpdate (fun o => Order._id o =? i) (applyUpdate updateData)
          (db_orders db) with
  | (None, _) => (Error 404 "Order not found", db)
  | (Some order, docs) => (Json 200 order, withOrders db docs)
  end.

(** ** Creating and listing orders *)

(** Body of [POST /api/orders]: any path of the Order schema, [_id] and
    [userId] included; keys outside the schema are dropped by the model
    constructor and are not represented. *)
Record OrderBody : Type := {
  n__id : option ObjectId;
  n_userId : option string;
  n_id : option string;
  n_date : option string;
  n_items : list Mixed;
  n_total : option Number;
  n_status : option string;
  n_tracking : option Mixed;
  n_paymentMethod : option string;
  n_address : option string;
  n_cancellationReason : option CancellationReason
}.

(** [{ ...req.body, userId: req.user.userId }] *)
Definition orderData (body : OrderBody) (user : Claims) : OrderBody :=
  {| n__id := n__id body;
     n_userId := Some (c_userId user);
     n_id := n_id body;
     n_date := n_date body;
     n_items := n_items body;
     n_total := n_total body;
     n_status := n_status body;
     n_tracking := n_tracking body;
     n_paymentMethod := n_paymentMethod body;
     n_address := n_address body;
     n_cancellationReason := n_cancellationReason body |}.

(** The [_id] under which [POST /api/orders] saves. *)
Definition newOrderId (body : OrderBody) (fresh : ObjectId) : ObjectId :=
  match n__id body with
  | Some i => i
  | None => fresh
  end.

(** [new Order(data)], for data that casts ([castOrderData] below): the
    document gets the [_id] of the data when there is one, a generated one
    otherwise. *)
Definition newOrder (data : OrderBody) (fresh : ObjectId) : Order.t :=
  {| Order._id := newOrderId data fresh;
     Order.userId := n_userId data;
     Order.id := n_id data;
     Order.date := n_date data;
     Order.items := n_items data;
     Order.total := n_total data;
     Order.status := n_status data;
     Order.tracking := n_tracking data;
     Order.paymentMethod := n_paymentMethod data;
     Order.address := n_address data;
     Order.cancellationReason := n_cancellationReason data |}.

(** [{ $inc: { orders: 1 } }] *)
Definition incOrders (u : User.t) : User.t :=
  {| User._id := User._id u;
     User.firstName := User.firstName u;
     User.lastName := User.lastName u;
     User.email := User.email u;
     User.password := User.password u;
     User.phone := User.phone u;
     User.dateOfBirth := User.dateOfBirth u;
     User.gender := User.gender u;
     User.address := User.address u;
     User.city := User.city u;
     User.state := User.state u;
     User.zipCode := User.zipCode u;
     User.country := User.country u;
     User.orders := (User.orders u + 1)%Z;
     User.profileImage := User.profileImage u;
     User.createdAt := User.createdAt u |}.

Definition duplicateKey : string := "E11000 duplicate key error".

(** [POST /api/orders].  [order.save()] inserts; the store rejects an [_id]
    it already holds, which the handler's [catch] turns into a 500 before
    the count is touched. *)
Definition post_api_orders (user : Claims) (body : OrderBody) (fresh : ObjectId)
    (db : Db) : Response Order.t * Db :=
  let order := newOrder (orderData body user) fresh in
  match findOrderById (Order._id order) (db_orders db) with
  | Some _ => (Error 500 duplicateKey, db)
  | None =>
      let saved := withOrders db (db_orders db ++ [order]) in
      let (_, docs) :=
        findOneAndUpdate (fun u => User._id u =? c_userId user) incOrders
          (db_users saved) in
      (Json 201 order, withUsers saved docs)
  end.

(** The order of the store on a [String] path: a missing value sorts below
    every string, strings compare byte by byte. *)
Definition date_leb (a b : option string) : bool :=
  match a, b with
  | None, _ => true
  | Some _, None => false
  | Some x, Some y => String.leb x y
  end.

(** [.sort({ date: -1 })], as an insertion sort. *)
Fixpoint insertByDateDesc (o : Order.t) (docs : list Order.t) : list Order.t :=
  match docs with
  | [] => [o]
  | d :: rest =>
      if date_leb (Order.date d) (Order.date o) then o :: d :: rest
      else d :: insertByDateDesc o rest
  end.

Definition sortByDateDesc (docs : list Order.t) : list Order.t :=
  fold_right insertByDateDesc [] docs.

(** [GET /api/orders] *)
Definition get_api_orders (user : Claims) (db : Db) : Response (list Order.t) * Db :=
  let orders := sortByDateDesc (filter (isOwner (c_userId user)) (db_orders db)) in
  (Json 200 orders, db).

(** ** Histories of order requests *)

(** The three requests that write to the [orders] collection. *)
Inductive OrderRequest : Type :=
| PostOrder (user : Claims) (body : OrderBody) (fresh : ObjectId)
| PutOrder (user : Claims) (i : ObjectId) (body : OrderStatusBody) (now : Date)
| AdminPutOrder (user : Claims) (i : ObjectId) (body : OrderStatusBody) (now : Date).

Definition serve (r : OrderRequest) (db : Db) : Db :=
  match r with
  | PostOrder user body fresh => snd (post_api_orders user body fresh db)
  | PutOrder user i body now => snd (put_api_orders_id user i body now db)
  | AdminPutOrder user i body now => snd (put_api_admin_orders_id user i body now db)
  end.

(** The database after serving the requests in order. *)
Definition serveAll (history : list OrderRequest) (db : Db) : Db :=
  fold_left (fun d r => serve r d) history db.

(** ** Accounts and tokens *)

(** What [select('-password')] leaves of a user document. *)
Record Profile : Type := {
  v__id : ObjectId;
  v_firstName : option string;
  v_lastName : option string;
  v_email : string;
  v_phone : option string;
  v_dateOfBirth : option string;
  v_gender : option string;
  v_address : option string;
  v_city : option string;
  v_state : option string;
  v_zipCode : option string;
  v_country : option string;
  v_orders : Number;
  v_profileImage : option string;
  v_createdAt : Date
}.

Definition selectWithoutPassword (u : User.t) : Profile :=
  {| v__id := User._id u;
     v_firstName := User.firstName u;
     v_lastName := User.lastName u;
     v_email := User.email u;
     v_phone := User.phone u;
     v_dateOfBirth := User.dateOfBirth u;
     v_gender := User.gender u;
     v_address := User.address u;
     v_city := User.city u;
     v_state := User.state u;
     v_zipCode := User.zipCode u;
     v_country := User.country u;
     v_orders := User.orders u;
     v_profileImage := User.profileImage u;
     v_createdAt := User.createdAt u |}.

(** The [user] object of the register and login responses. *)
Record PublicUser : Type := {
  pu_id : ObjectId;
  pu_name : string;
  pu_email : string;
  pu_phone : option string;
  pu_dateOfBirth : option string;
  pu_gender : option string;
  pu_address : option string;
  pu_orders : Number;
  pu_profileImage : option string
}.

(** A value inside a template literal. *)
Definition interpolate (v : option string) : string :=
  match v with
  | Some s => s
  | None => "undefined"
  end.

Definition publicUser (u : User.t) (first last : option string) : PublicUser :=
  {| pu_id := User._id u;
     pu_name := interpolate first ++ " " ++ interpolate last;
     pu_email := User.email u;
     pu_phone := User.phone u;
     pu_dateOfBirth := User.dateOfBirth u;
     pu_gender := User.gender u;
     pu_address := User.address u;
     pu_orders := User.orders u;
     pu_profileImage := User.profileImage u |}.

(** A token in decoded form: its payload and its signature.  The compact
    base64url text is the library's business; [parseToken] below stands for
    reading it back. *)
Record Token : Type := {
  t_payload : Claims;
  t_signature : string
}.

Record AuthBody : Type := {
  a_message : string;
  a_token : Token;
  a_user : PublicUser
}.

Record RegisterBody : Type := {
  r_firstName : option string;
  r_lastName : option string;
  r_email : string;
  r_password : string;
  r_phone : option string;
  r_dateOfBirth : option string;
  r_gender : option string;
  r_address : option string;
  r_city : option string;
  r_state : option string;
  r_zipCode : option string;
  r_country : option string
}.

Record LoginBody : Type := {
  l_email : string;
  l_password : string
}.

(** Body of [PUT /api/user]: the eleven keys the handler destructures. *)
Record ProfileBody : Type := {
  f_firstName : option string;
  f_lastName : option string;
  f_phone : option string;
  f_dateOfBirth : option string;
  f_gender : option string;
  f_address : option string;
  f_city : option string;
  f_state : option string;
  f_zipCode : option string;
  f_country : option string;
  f_profileImage : option string
}.

Record PasswordBody : Type := {
  currentPassword : string;
  newPassword : string
}.

(** The update document of [PUT /api/user] applied to a user. *)
Definition applyProfile (b : ProfileBody) (u : User.t) : User.t :=
  {| User._id := User._id u;
     User.firstName := orElse (f_firstName b) (User.firstName u);
     User.lastName := orElse (f_lastName b) (User.lastName u);
     User.email := User.email u;
     User.password := User.password u;
     User.phone := orElse (f_phone b) (User.phone u);
     User.dateOfBirth := orElse (f_dateOfBirth b) (User.dateOfBirth u);
     User.gender := orElse (f_gender b) (User.gender u);
     User.address := orElse (f_address b) (User.address u);
     User.city := orElse (f_city b) (User.city u);
     User.state := orElse (f_state b) (User.state u);
     User.zipCode := orElse (f_zipCode b) (User.zipCode u);
     User.country := orElse (f_country b) (User.country u);
     User.orders := User.orders u;
     User.profileImage := orElse (f_profileImage b) (User.profileImage u);
     User.createdAt := User.createdAt u |}.

(** [user.password = hashedPassword] *)
Definition setPassword (hashed : string) (u : User.t) : User.t :=
  {| User._id := User._id u;
     User.firstName := User.firstName u;
     User.lastName := User.lastName u;
     User.email := User.email u;
     User.password := hashed;
     User.phone := User.phone u;
     User.dateOfBirth := User.dateOfBirth u;
     User.gender := User.gender u;
     User.address := User.address u;
     User.city := User.city u;
     User.state := User.state u;
     User.zipCode := User.zipCode u;
     User.country := User.country u;
     User.orders := User.orders u;
     User.profileImage := User.profileImage u;
     User.createdAt := User.createdAt u |}.

(** [GET /api/user], for a token whose [userId] is an ObjectId. *)
Definition get_api_user (user : Claims) (db : Db) : Response Profile * Db :=
  match findUserById (c_userId user) (db_users db) with
  | None => (Error 404 "User not found", db)
  | Some u => (Json 200 (selectWithoutPassword u), db)
  end.

(** [PUT /api/user], for a token whose [userId] is an ObjectId: the result
    of [findByIdAndUpdate], [null] included, goes straight to [res.json]. *)
Definition put_api_user (user : Claims) (body : ProfileBody) (db : Db)
    : Response (option Profile) * Db :=
  let (updatedUser, docs) :=
    findOneAndUpdate (fun u => User._id u =? c_userId user) (applyProfile body)
      (db_users db) in
  (Json 200 (option_map selectWithoutPassword updatedUser), withUsers db docs).

(** [authHeader.split(' ')] *)
Fixpoint split_space (s : string) : list string :=
  match s with
  | EmptyString => [""]
  | String c rest =>
      if Ascii.eqb c " "%char then "" :: split_space rest
      else match split_space rest with
           | w :: ws => String c w :: ws
           | [] => [String c ""]
           end
  end.

(** [authHeader && authHeader.split(' ')[1]], with every falsy outcome
    ([undefined] or the empty string) as [None]. *)
Definition bearerToken (authHeader : option string) : option string :=
  match authHeader with
  | None => None
  | Some h =>
      if h =? "" then None
      else match nth_error (split_space h) 1 with
           | Some w => if w =? "" then None else Some w
           | None => None
           end
  end.

(** [24h] in seconds, as [jwt.sign] reads [expiresIn: '24h']. *)
Definition expiresIn_24h : Z := 24 * 60 * 60.

(** The clock of the token library: [Math.floor(Date.now() / 1000)]. *)
Definition clockTimestamp (now : Date) : Z := (now / 1000)%Z.

Inductive VerifyError : Type :=
| JsonWebTokenError
| TokenExpiredError.

(** What [authenticateToken] does with a request: answer it, or call
    [next()] with [req.user] set. *)
Inductive Gate : Type :=
| Reply (code : Z) (error : string)
| Next (user : Claims).

Section Server.
(** [process.env.JWT_SECRET] *)
Variable env_JWT_SECRET : option string.

(** The primitives of the two libraries: the keyed hash under a token's
    signature, the reader of a token's text, and bcrypt. *)
Variable hmacSHA256 : string -> Claims -> string.
Variable parseToken : string -> option Token.
Variable bcrypt_hash : string -> Z -> string -> string.
Variable bcrypt_compare : string -> string -> bool.

(** [process.env.JWT_SECRET || 'your-secret-key'] *)
Definition JWT_SECRET : string :=
  match env_JWT_SECRET with
  | Some s => if s =? "" then "your-secret-key" else s
  | None => "your-secret-key"
  end.

(** [jwt.sign({ userId, email }, secret, { expiresIn })] at time [now]. *)
Definition jwt_sign (userId : ObjectId) (email : string) (secret : string)
    (expiresIn : Z) (now : Date) : Token :=
  let iat := clockTimestamp now in
  let payload :=
    {| c_userId := userId; c_email := email;
       c_iat := iat; c_exp := (iat + expiresIn)%Z |} in
  {| t_payload := payload; t_signature := hmacSHA256 secret payload |}.

(** [jwt.verify(token, secret)] at time [now], for tokens of the shape
    [jwt_sign] gives (an [exp], no [nbf], the default algorithm): the
    signature first, then the expiry, [clockTimestamp >= exp] being
    expired. *)
Definition jwt_verify (token : Token) (secret : string) (now : Date)
    : VerifyError + Claims :=
  if negb (t_signature token =? hmacSHA256 secret (t_payload token))
  then inl JsonWebTokenError
  else if (c_exp (t_payload token) <=? clockTimestamp now)%Z
  then inl TokenExpiredError
  else inr (t_payload token).

(** [authenticateToken] *)
Definition authenticateToken (authorization : option string) (now : Date) : Gate :=
  match bearerToken authorization with
  | None => Reply 401 "Access token required"
  | Some text =>
      match parseToken text with
      | None => Reply 403 "Invalid or expired token"
      | Some token =>
          match jwt_verify token JWT_SECRET now with
          | inl _ => Reply 403 "Invalid or expired token"
          | inr user => Next user
          end
      end
  end.

(** [new User({ ... })] in [POST /api/register]. *)
Definition newUser (body : RegisterBody) (hashedPassword : string)
    (fresh : ObjectId) (now : Date) : User.t :=
  {| User._id := fresh;
     User.firstName := r_firstName body;
     User.lastName := r_lastName body;
     User.email := r_email body;
     User.password := hashedPassword;
     User.phone := r_phone body;
     User.dateOfBirth := r_dateOfBirth body;
     User.gender := r_gender body;
     User.address := r_address body;
     User.city := r_city body;
     User.state := r_state body;
     User.zipCode := r_zipCode body;
     User.country := r_country body;
     User.orders := 0%Z;
     User.profileImage := None;
     User.createdAt := now |}.

(** [POST /api/register] *)
Definition post_api_register (body : RegisterBody) (fresh : ObjectId)
    (salt : string) (now : Date) (db : Db) : Response AuthBody * Db :=
  match findOne (fun u => User.email u =? r_email body) (db_users db) with
  | Some _ => (Error 400 "User already exists with this email", db)
  | None =>
      let hashedPassword := bcrypt_hash (r_password body) 10 salt in
      let user := newUser body hashedPassword fresh now in
      match findUserById (User._id user) (db_users db) with
      | Some _ => (Error 500 duplicateKey, db)
      | None =>
          let token :=
            jwt_sign (User._id user) (User.email user) JWT_SECRET expiresIn_24h now in
          (Json 201
             {| a_message := "User created successfully";
                a_token := token;
                a_user := publicUser user (r_firstName body) (r_lastName body) |},
           withUsers db (db_users db ++ [user]))
      end
  end.

(** [POST /api/login] *)
Definition post_api_login (body : LoginBody) (now : Date) (db : Db)
    : Response AuthBody * Db :=
  match findOne (fun u => User.email u =? l_email body) (db_users db) with
  | None => (Error 400 "Invalid email or password", db)
  | Some user =>
      if negb (bcrypt_compare (l_password body) (User.password user))
      then (Error 400 "Invalid email or password", db)
      else
        let token :=
          jwt_sign (User._id user) (User.email user) JWT_SECRET expiresIn_24h now in
        (Json 200
           {| a_message := "Login successful";
              a_token := token;
              a_user := publicUser user (User.firstName user) (User.lastName user) |},
         db)
  end.

(** [PUT /api/user/password] *)
Definition put_api_user_password (user : Claims) (body : PasswordBody)
    (salt : string) (db : Db) : Response string * Db :=
  match findUserById (c_userId user) (db_users db) with
  | None => (Error 404 "User not found", db)
  | Some u =>
      if negb (bcrypt_compare (currentPassword body) (User.password u))
      then (Error 400 "Current password is incorrect", db)
      else
        let hashedPassword := bcrypt_hash (newPassword body) 10 salt in
        (Json 200 "Password updated successfully",
         withUsers db
           (updateOne (fun d => User._id d =? User._id u)
              (setPassword hashedPassword) (db_users db)))
  end.
End Server.

(** ** Vocabulary of the properties *)

(** No two stored orders share an [_id]. *)
Definition uniqueOrderIds (db : Db) : Prop :=
  NoDup (map Order._id (db_orders db)).

(** What a cancelling self-service update stores under
    [cancellationReason], given what the order held before. *)
Definition cancellationAfter (body : OrderStatusBody) (now : Date)
    (before : option CancellationReason) : option CancellationReason :=
  match b_cancellationReason body with
  | Some c =>
      Some {| reason := reason c; comment := comment c; cancelledAt := Some now |}
  | None => before
  end.

(** [a] may come before [b] in a listing by date, newest first. *)
Definition notOlder (a b : Order.t) : Prop :=
  date_leb (Order.date b) (Order.date a) = true.

(** [r] is a status update of order [i] to ["Cancelled"] that supplies the
    reason [c] and is served at time [now]. *)
Definition cancelsWithReason (r : OrderRequest) (i : ObjectId)
    (c : CancellationReason) (now : Date) : Prop :=
  match r with
  | PostOrder _ _ _ => False
  | PutOrder _ j body t | AdminPutOrder _ j body t =>
      j = i /\ b_status body = Some "Cancelled" /\
      b_cancellationReason body = Some c /\ t = now
  end.

(** [r] creates order [i] with the cancellation record [rec] in its body. *)
Definition createsWithRecord (r : OrderRequest) (i : ObjectId)
    (rec : CancellationReason) : Prop :=
  match r with
  | PostOrder _ body fresh =>
      newOrderId body fresh = i /\ n_cancellationReason body = Some rec
  | _ => False
  end.


(** Where a stored cancellation record can come from. *)
Definition recordOrigin (history : list OrderRequest) (i : ObjectId)
    (rec : CancellationReason) : Prop :=
  (exists r c now, In r history /\ cancelsWithReason r i c now /\
                   rec = stampCancellation c now) \/
  (exists r, In r history /\ createsWithRecord r i rec).

(** ** Sample data *)

Definition alice : Claims :=
  {| c_userId := "u1"; c_email := "alice@x.com"; c_iat := 0; c_exp := 86400 |}.

Definition bob : Claims :=
  {| c_userId := "u2"; c_email := "bob@x.com"; c_iat := 0; c_exp := 86400 |}.

Definition pendingOrder : OrderBody :=
  {| n__id := None; n_userId := None; n_id := Some "ORD-1";
     n_date := Some "2024-01-15"; n_items := []; n_total := Some 299%Z;
     n_status := Some "Pending"; n_tracking := None;
     n_paymentMethod := Some "card"; n_address := None;
     n_cancellationReason := None |}.


(** A creation body that names somebody else as the owner. *)
Definition spoofedOrder : OrderBody :=
  {| n__id := None; n_userId := Some "u2"; n_id := Some "ORD-3";
     n_date := Some "2024-01-17"; n_items := [MStr "sku-1"]; n_total := Some 99%Z;
     n_status := Some "Pending"; n_tracking := None;
     n_paymentMethod := Some "card"; n_address := None;
     n_cancellationReason := None |}.

Definition cancelBody : OrderStatusBody :=
  {| b_status := Some "Cancelled"; b_tracking := None;
     b_cancellationReason :=
       Some {| reason := Some "r"; comment := Some "c"; cancelledAt := Some 5%Z |} |}.

Definition shippedBody : OrderStatusBody :=
  {| b_status := Some "Shipped"; b_tracking := None; b_cancellationReason := None |}.

(** Create, cancel with a reason, then move on to another status. *)
Definition staleHistory : list OrderRequest :=
  [ PostOrder alice pendingOrder "o1";
    PutOrder alice "o1" cancelBody 1000%Z;
    PutOrder alice "o1" shippedBody 2000%Z ].


Definition staleOrder : Order.t :=
  {| Order._id := "o1"; Order.userId := Some "u1"; Order.id := Some "ORD-1";
     Order.date := Some "2024-01-15"; Order.items := []; Order.total := Some 299%Z;
     Order.status := Some "Shipped"; Order.tracking := None;
     Order.paymentMethod := Some "card"; Order.address := None;
     Order.cancellationReason :=
       Some {| reason := Some "r"; comment := Some "c"; cancelledAt := Some 1000%Z |} |}.


Definition aliceDoc : User.t :=
  {| User._id := "u1"; User.firstName := Some "Alice"; User.lastName := Some "A";
     User.email := "alice@x.com"; User.password := "$2a$10$stored";
     User.phone := None; User.dateOfBirth := None; User.gender := None;
     User.address := None; User.city := None; User.state := None;
     User.zipCode := None; User.country := None; User.orders := 0%Z;
     User.profileImage := None; User.createdAt := 0%Z |}.

(** A verified identity with no user document behind it. *)
Definition ghost : Claims :=
  {| c_userId := "u9"; c_email := "gone@x.com"; c_iat := 0; c_exp := 86400 |}.

Definition renameBody : ProfileBody :=
  {| f_firstName := Some "Zed"; f_lastName := None; f_phone := None;
     f_dateOfBirth := None; f_gender := None; f_address := None;
     f_city := None; f_state := None; f_zipCode := None; f_country := None;
     f_profileImage := None |}.

Definition aliceOnly : Db := {| db_users := [aliceDoc]; db_orders := [] |}.

Definition aliceOrder : Order.t := newOrder (orderData pendingOrder alice) "o1".

Definition aliceOrderDb : Db := {| db_users := [aliceDoc]; db_orders := [aliceOrder] |}.

(** Stand-ins for the primitives of the two libraries, enough to run the
    handlers on the sample data. *)
Definition demo_hmac (key : string) (c : Claims) : string :=
  key ++ ":" ++ c_userId c ++ ":" ++ c_email c.

Definition demo_hash (password : string) (rounds : Z) (salt : string) : string :=
  "hashed:" ++ password.

Definition demo_compare (password hashed : string) : bool :=
  hashed =? "hashed:" ++ password.

Definition carolBody : RegisterBody :=
  {| r_firstName := Some "Carol"; r_lastName := Some "C";
     r_email := "carol@x.com"; r_password := "secret1";
     r_phone := None; r_dateOfBirth := None; r_gender := None;
     r_address := None; r_city := None; r_state := None;
     r_zipCode := None; r_country := None |}.

Definition wrongPassword : PasswordBody :=
  {| currentPassword := "wrong"; newPassword := "secret2" |}.

Definition carolDoc : User.t :=
  newUser carolBody (demo_hash "secret1" 10 "") "u3" 1500%Z.

Definition carolDb : Db := {| db_users := [aliceDoc; carolDoc]; db_orders := [] |}.

Definition carol : Claims :=
  {| c_userId := "u3"; c_email := "carol@x.com"; c_iat := 1; c_exp := 86401 |}.

(** * The catalogue, the blog, the admin routes and whole histories *)

Module Product.
Record t : Type := {
  _id : ObjectId;
  name : option string;
  price : option float;
  description : option string;
  category : option string;
  img : option string;
  rating : option float;
  reviews : option float;
  deliveryTime : option string
}.
End Product.

Module BlogPost.
Record t : Type := {
  _id : ObjectId;
  title : option string;
  excerpt : option string;
  content : option string;
  author : option string;
  date : option string;
  category : option string;
  image : option string
}.
End BlogPost.

(** ** Collections keyed by [_id] *)

Section Keyed.
Context {A : Type}.
Variable key : A -> ObjectId.

(** [Model.findById(id)] *)
Definition findById (i : ObjectId) (docs : list A) : option A :=
  findOne (fun d => key d =? i) docs.

(** [doc.save()] of a new document: the store refuses an [_id] it already
    holds ([None]), otherwise the document goes last. *)
Definition save (doc : A) (docs : list A) : option (list A) :=
  match findById (key doc) docs with
  | Some _ => None
  | None => Some (docs ++ [doc])
  end.

(** The write half of [findByIdAndDelete]: the first match goes. *)
Fixpoint deleteOne (i : ObjectId) (docs : list A) : list A :=
  match docs with
  | [] => []
  | d :: rest => if key d =? i then rest else d :: deleteOne i rest
  end.

(** [Model.findByIdAndDelete(id)]: the deleted document (or [null]) and
    the collection afterwards. *)
Definition findByIdAndDelete (i : ObjectId) (docs : list A) : option A * list A :=
  match findById i docs with
  | None => (None, docs)
  | Some d => (Some d, deleteOne i docs)
  end.

(** [Model.insertMany(docs)]: in order, stopping at the first document the
    store refuses; [false] is the rejected promise. *)
Fixpoint insertMany (new : list A) (docs : list A) : bool * list A :=
  match new with
  | [] => (true, docs)
  | d :: rest =>
      match save d docs with
      | None => (false, docs)
      | Some docs' => insertMany rest docs'
      end
  end.
End Keyed.

(** [.sort({ date: -1 })] for any document with a [date] path. *)
Section ByDate.
Context {A : Type}.
Variable date : A -> option string.

Fixpoint insertDesc (x : A) (docs : list A) : list A :=
  match docs with
  | [] => [x]
  | d :: rest =>
      if date_leb (date d) (date x) then x :: d :: rest
      else d :: insertDesc x rest
  end.

Definition sortDesc (docs : list A) : list A :=
  fold_right insertDesc [] docs.
End ByDate.

(** [path === value] on an optional [String] path. *)
Definition holds (path : option string) (value : string) : bool :=
  match path with
  | Some s => s =? value
  | None => false
  end.

(** ** Products *)

(** Body of [POST /api/products]: the paths of the schema, [_id] included. *)
Record ProductBody : Type := {
  p__id : option ObjectId;
  p_name : option string;
  p_price : option float;
  p_description : option string;
  p_category : option string;
  p_img : option string;
  p_rating : option float;
  p_reviews : option float;
  p_deliveryTime : option string
}.

(** [new Product(req.body)] *)
Definition newProduct (body : ProductBody) (fresh : ObjectId) : Product.t :=
  {| Product._id := match p__id body with Some i => i | None => fresh end;
     Product.name := p_name body;
     Product.price := p_price body;
     Product.description := p_description body;
     Product.category := p_category body;
     Product.img := p_img body;
     Product.rating := p_rating body;
     Product.reviews := p_reviews body;
     Product.deliveryTime := p_deliveryTime body |}.

(** [GET /api/products] *)
Definition get_api_products (products : list Product.t) : Response (list Product.t) :=
  Json 200 products.

(** [{ $or: [{ category: '7m' }, { deliveryTime: '7m' }] }] *)
Definition is7m (p : Product.t) : bool :=
  holds (Product.category p) "7m" || holds (Product.deliveryTime p) "7m".

(** [GET /api/products/7m] *)
Definition get_api_products_7m (products : list Product.t) : Response (list Product.t) :=
  Json 200 (filter is7m products).

(** [POST /api/products]: a failure answers 400 here. *)
Definition post_api_products (body : ProductBody) (fresh : ObjectId)
    (products : list Product.t) : Response Product.t * list Product.t :=
  let product := newProduct body fresh in
  match save Product._id product products with
  | None => (Error 400 duplicateKey, products)
  | Some docs => (Json 201 product, docs)
  end.

(** [DELETE /api/admin/products/:id], with [:id] cast to the ObjectId [i];
    the body of a success is its [message]. *)
Definition delete_api_admin_products_id (user : Claims) (i : ObjectId)
    (products : list Product.t) : Response string * list Product.t :=
  match findByIdAndDelete Product._id i products with
  | (None, _) => (Error 404 "Product not found", products)
  | (Some product, docs) => (Json 200 "Product deleted successfully", docs)
  end.

(** ** Blog posts *)

Record BlogBody : Type := {
  g__id : option ObjectId;
  g_title : option string;
  g_excerpt : option string;
  g_content : option string;
  g_author : option string;
  g_date : option string;
  g_category : option string;
  g_image : option string
}.

(** [new BlogPost(req.body)] *)
Definition newBlogPost (body : BlogBody) (fresh : ObjectId) : BlogPost.t :=
  {| BlogPost._id := match g__id body with Some i => i | None => fresh end;
     BlogPost.title := g_title body;
     BlogPost.excerpt := g_excerpt body;
     BlogPost.content := g_content body;
     BlogPost.author := g_author body;
     BlogPost.date := g_date body;
     BlogPost.category := g_category body;
     BlogPost.image := g_image body |}.

(** [GET /api/blog] *)
Definition get_api_blog (posts : list BlogPost.t) : Response (list BlogPost.t) :=
  Json 200 (sortDesc BlogPost.date posts).

(** [GET /api/blog/:id], with [:id] cast to the ObjectId [i]. *)
Definition get_api_blog_id (i : ObjectId) (posts : list BlogPost.t)
    : Response BlogPost.t :=
  match findById BlogPost._id i posts with
  | None => Error 404 "Blog post not found"
  | Some blogPost => Json 200 blogPost
  end.

(** [GET /api/blog/category/:category] *)
Definition get_api_blog_category (category : string) (posts : list BlogPost.t)
    : Response (list BlogPost.t) :=
  Json 200
    (sortDesc BlogPost.date
       (filter (fun p => holds (BlogPost.category p) category) posts)).

(** [POST /api/blog] *)
Definition post_api_blog (body : BlogBody) (fresh : ObjectId)
    (posts : list BlogPost.t) : Response BlogPost.t * list BlogPost.t :=
  let blogPost := newBlogPost body fresh in
  match save BlogPost._id blogPost posts with
  | None => (Error 400 duplicateKey, posts)
  | Some docs => (Json 201 blogPost, docs)
  end.

(** [DELETE /api/admin/blog/:id], with [:id] cast to the ObjectId [i]. *)
Definition delete_api_admin_blog_id (user : Claims) (i : ObjectId)
    (posts : list BlogPost.t) : Response string * list BlogPost.t :=
  match findByIdAndDelete BlogPost._id i posts with
  | (None, _) => (Error 404 "Blog post not found", posts)
  | (Some blogPost, docs) => (Json 200 "Blog post deleted successfully", docs)
  end.

Definition seedPost (title excerpt content author date category image : string)
    : BlogBody :=
  {| g__id := None; g_title := Some title; g_excerpt := Some excerpt;
     g_content := Some content; g_author := Some author; g_date := Some date;
     g_category := Some category; g_image := Some image |}.

(** The array [blogPosts] of [POST /api/seed/blog]. *)
Definition blogPosts : list BlogBody :=
  [ seedPost
      "The Future of Smartphones: What to Expect in 2024"
      "Discover the latest trends and innovations in smartphone technology for the coming year."
      "The smartphone industry is constantly evolving, with new features and technologies emerging every year. In 2024, we expect to see foldable phones becoming more mainstream, improved battery technology, and enhanced AI capabilities that will revolutionize how we interact with our devices."
      "Tech Insider" "2024-01-15" "Mobiles" "img/Best-phones-202.avif";
    seedPost
      "Top 5 Laptops for Professionals in 2024"
      "Find the perfect laptop for your professional needs with our comprehensive guide."
      "Choosing the right laptop for professional work can be challenging. We've tested and reviewed the top models from leading brands to help you make an informed decision. From powerful processors to stunning displays, these laptops offer the best performance for business and creative work."
      "Product Review Team" "2024-01-10" "Laptops" "img/laptop blog.jpg";
    seedPost
      "Essential Gadgets for Digital Nomads"
      "Must-have tech gadgets for those who work and travel simultaneously."
      "Digital nomads need reliable and portable gadgets to stay productive while on the move. From compact keyboards to portable monitors and power banks, we've compiled a list of essential gadgets that will make your nomadic lifestyle easier and more efficient."
      "Travel Tech" "2024-01-05" "Gadgets" "img/blog_gadgets.jpg";
    seedPost
      "How to Extend Your Phone Battery Life"
      "Practical tips to maximize your smartphone battery performance."
      "Battery life is a common concern for smartphone users. By adjusting settings, managing apps, and following best practices, you can significantly extend your phone's battery life. Learn about the most effective strategies to keep your device powered throughout the day."
      "Tech Tips" "2023-12-28" "Mobiles" "img/battery.jpg";
    seedPost
      "The Rise of Wearable Technology"
      "Exploring how wearable tech is changing our daily lives."
      "Wearable technology has evolved from simple fitness trackers to sophisticated health monitors and smart clothing. This article explores the latest advancements in wearable tech and how these devices are integrating into our everyday routines."
      "Tech Trends" "2023-12-20" "Gadgets" "img/feature_image.jpg";
    seedPost
      "Gaming Laptops vs Desktop Setups: Which is Better?"
      "A comparison of gaming laptops and desktop computers for avid gamers."
      "The debate between gaming laptops and desktop setups continues among gaming enthusiasts. While laptops offer portability, desktops provide more power and customization options. We break down the pros and cons of each to help you decide which is right for your gaming needs."
      "Gaming Expert" "2023-12-15" "Laptops" "img/vs.jpg" ].

(** The documents [insertMany] builds from an array of bodies, the [k]-th
    one under the [k]-th generated [_id]. *)
Fixpoint numbered (fresh : nat -> ObjectId) (k : nat) (bodies : list BlogBody)
    : list BlogPost.t :=
  match bodies with
  | [] => []
  | b :: rest => newBlogPost b (fresh k) :: numbered fresh (S k) rest
  end.

Record SeedBody : Type := {
  s_message : string;
  s_count : Z
}.

(** [POST /api/seed/blog]: [deleteMany({})], then [insertMany(blogPosts)]. *)
Definition post_api_seed_blog (fresh : nat -> ObjectId) (posts : list BlogPost.t)
    : Response SeedBody * list BlogPost.t :=
  let emptied : list BlogPost.t := [] in
  match insertMany BlogPost._id (numbered fresh 0 blogPosts) emptied with
  | (false, docs) => (Error 500 duplicateKey, docs)
  | (true, docs) =>
      (Json 200 {| s_message := "Blog posts seeded successfully";
                   s_count := Z.of_nat (List.length blogPosts) |},
       docs)
  end.

(** ** Admin listings *)

(** [GET /api/admin/users]: the caller is not looked at. *)
Definition get_api_admin_users (user : Claims) (db : Db)
    : Response (list Profile) * Db :=
  (Json 200 (map selectWithoutPassword (db_users db)), db).

(** [GET /api/admin/orders] *)
Definition get_api_admin_orders (user : Claims) (db : Db)
    : Response (list Order.t) * Db :=
  (Json 200 (sortByDateDesc (db_orders db)), db).

(** ** Whole requests *)

(** Every request that reaches the [users] or the [orders] collection,
    after the middleware. *)
Inductive Request : Type :=
| Register (body : RegisterBody) (fresh : ObjectId) (salt : string) (now : Date)
| Login (body : LoginBody) (now : Date)
| GetUser (user : Claims)
| PutUser (user : Claims) (body : ProfileBody)
| PutPassword (user : Claims) (body : PasswordBody) (salt : string)
| GetOrders (user : Claims)
| AdminUsers (user : Claims)
| AdminOrders (user : Claims)
| Orders (r : OrderRequest).

Section Routes.
Variable env_JWT_SECRET : option string.
Variable hmacSHA256 : string -> Claims -> string.
Variable parseToken : string -> option Token.
Variable bcrypt_hash : string -> Z -> string -> string.
Variable bcrypt_compare : string -> string -> bool.

(** A route with [authenticateToken] in front of its handler, over any
    store [S]. *)
Definition protected {A S : Type} (authorization : option string) (now : Date)
    (handler : Claims -> S -> Response A * S) (store : S) : Response A * S :=
  match authenticateToken env_JWT_SECRET hmacSHA256 parseToken authorization now with
  | Reply code error => (Error code error, store)
  | Next user => handler user store
  end.

Definition handle (r : Request) (db : Db) : Db :=
  match r with
  | Register body fresh salt now =>
      snd (post_api_register env_JWT_SECRET hmacSHA256 bcrypt_hash body fresh salt now db)
  | Login body now =>
      snd (post_api_login env_JWT_SECRET hmacSHA256 bcrypt_compare body now db)
  | GetUser user => snd (get_api_user user db)
  | PutUser user body => snd (put_api_user user body db)
  | PutPassword user body salt =>
      snd (put_api_user_password bcrypt_hash bcrypt_compare user body salt db)
  | GetOrders user => snd (get_api_orders user db)
  | AdminUsers user => snd (get_api_admin_users user db)
  | AdminOrders user => snd (get_api_admin_orders user db)
  | Orders r => serve r db
  end.

(** The database after handling the requests in order. *)
Definition handleAll (history : list Request) (db : Db) : Db :=
  fold_left (fun d r => handle r d) history db.
End Routes.

(** ** Vocabulary of the further properties *)

(** No two stored users share an [_id], or an email. *)
Definition uniqueUserIds (db : Db) : Prop :=
  NoDup (map User._id (db_users db)).

Definition uniqueEmails (db : Db) : Prop :=
  NoDup (map User.email (db_users db)).

(** How many stored orders have [i] as their [userId]. *)
Definition ordersOwnedBy (i : ObjectId) (db : Db) : Z :=
  Z.of_nat (List.length (filter (isOwner i) (db_orders db))).

(** Every user's [orders] count is the number of stored orders of that
    user. *)
Definition orderCountsMatch (db : Db) : Prop :=
  forall u, In u (db_users db) -> User.orders u = ordersOwnedBy (User._id u) db.

(** The paths of an order that no status update writes. *)
Definition sameOrderData (a b : Order.t) : Prop :=
  Order._id a = Order._id b /\
  Order.userId a = Order.userId b /\
  Order.id a = Order.id b /\
  Order.date a = Order.date b /\
  Order.items a = Order.items b /\
  Order.total a = Order.total b /\
  Order.paymentMethod a = Order.paymentMethod b /\
  Order.address a = Order.address b.

(** [r] is the creation that [o] still carries the data of. *)
Definition createdAs (r : OrderRequest) (o : Order.t) : Prop :=
  match r with
  | PostOrder user body fresh => sameOrderData (newOrder (orderData body user) fresh) o
  | _ => False
  end.

(** [s] contains a space. *)
Fixpoint hasSpace (s : string) : bool :=
  match s with
  | EmptyString => false
  | String c rest => Ascii.eqb c " "%char || hasSpace rest
  end.

(** [a] may come before [b] in a listing by [date], newest first. *)
Definition newestFirst {A : Type} (date : A -> option string) (a b : A) : Prop :=
  date_leb (date b) (date a) = true.

(** The requests that write to the blog collection. *)
Inductive BlogRequest : Type :=
| PostBlog (body : BlogBody) (fresh : ObjectId)
| DeleteBlog (user : Claims) (i : ObjectId)
| SeedBlog (fresh : nat -> ObjectId).

Definition serveBlog (r : BlogRequest) (posts : list BlogPost.t) : list BlogPost.t :=
  match r with
  | PostBlog body fresh => snd (post_api_blog body fresh posts)
  | DeleteBlog user i => snd (delete_api_admin_blog_id user i posts)
  | SeedBlog fresh => snd (post_api_seed_blog fresh posts)
  end.

Definition serveBlogAll (history : list BlogRequest) (posts : list BlogPost.t)
    : list BlogPost.t :=
  fold_left (fun p r => serveBlog r p) history posts.

(** ** Further sample data *)

Definition shippedWithReason : OrderStatusBody :=
  {| b_status := Some "Shipped"; b_tracking := Some (MStr "TRK-1");
     b_cancellationReason :=
       Some {| reason := Some "late"; comment := None; cancelledAt := None |} |}.

Definition staleDb : Db := {| db_users := [aliceDoc]; db_orders := [staleOrder] |}.

(** A token reader that knows one text, that of a token issued to Carol
    at 1.5 s under the fallback key. *)
Definition carolToken : Token :=
  jwt_sign demo_hmac "u3" "carol@x.com" (JWT_SECRET None) expiresIn_24h 1500%Z.

Definition demo_parse (text : string) : option Token :=
  if text =? "carol.token" then Some carolToken else None.

Definition rightPassword : PasswordBody :=
  {| currentPassword := "secret1"; newPassword := "secret2" |}.

Definition carolAgain : RegisterBody :=
  {| r_firstName := Some "Caroline"; r_lastName := None;
     r_email := "carol@x.com"; r_password := "other";
     r_phone := None; r_dateOfBirth := None; r_gender := None;
     r_address := None; r_city := None; r_state := None;
     r_zipCode := None; r_country := None |}.

Definition demoIds (k : nat) : ObjectId :=
  match k with
  | 0 => "b0" | 1 => "b1" | 2 => "b2" | 3 => "b3" | 4 => "b4" | 5 => "b5"
  | _ => "b6"
  end%nat.

Definition seededBlog : list BlogPost.t := numbered demoIds 0 blogPosts.

Definition firstSeedPost : BlogPost.t :=
  newBlogPost
    (seedPost
       "The Future of Smartphones: What to Expect in 2024"
       "Discover the latest trends and innovations in smartphone technology for the coming year."
       "The smartphone industry is constantly evolving, with new features and technologies emerging every year. In 2024, we expect to see foldable phones becoming more mainstream, improved battery technology, and enhanced AI capabilities that will revolutionize how we interact with our devices."
       "Tech Insider" "2024-01-15" "Mobiles" "img/Best-phones-202.avif")
    "b0".

Definition draftPost : BlogBody :=
  {| g__id := None; g_title := Some "Draft"; g_excerpt := None;
     g_content := Some "text"; g_author := Some "Alice"; g_date := Some "2024-02-01";
     g_category := Some "Mobiles"; g_image := None |}.

Definition chargerBody : ProductBody :=
  {| p__id := None; p_name := Some "Emergency Phone Charger";
     p_price := Some 299%float;
     p_description := Some "Portable power bank with 7-minute delivery";
     p_category := Some "7m"; p_img := Some "img/Emergency Phone Charger.webp";
     p_rating := Some 4.5%float; p_reviews := Some 120%float;
     p_deliveryTime := Some "7m" |}.

Definition keyboardBody : ProductBody :=
  {| p__id := None;
     p_name := Some "Logitech K480 Multidevice Bluetooth Tablet Keyboard";
     p_price := Some 2999%float;
     p_description := Some "Multi-Device | Easy-Switch Dial | Built-in Cradle";
     p_category := Some "Gadgets"; p_img := Some "img/keybord.jpg";
     p_rating := Some 4.5%float; p_reviews := Some 1485%float;
     p_deliveryTime := Some "2-3 days" |}.

Definition charger : Product.t := newProduct chargerBody "p1".

Definition keyboard : Product.t := newProduct keyboardBody "p2".

Definition twoProducts : list Product.t := [keyboard; charger].

(** Bodies that bring an [_id] which is already stored. *)
Definition clashPost : BlogBody :=
  {| g__id := Some "b0"; g_title := Some "Clash"; g_excerpt := None;
     g_content := None; g_author := None; g_date := None;
     g_category := None; g_image := None |}.

Definition clashProduct : ProductBody :=
  {| p__id := Some "p1"; p_name := Some "Clash"; p_price := None;
     p_description := None; p_category := None; p_img := None;
     p_rating := None; p_reviews := None; p_deliveryTime := None |}.

(** * Requests before the cast *)

(** An [_id] reaches the server as text: [req.params.id], the [userId] of a
    token, the [_id] of a body.  Before a query or a save runs, Mongoose
    casts that text to an ObjectId and throws a [CastError] when it is not
    one; two spellings of one id (upper and lower case digits) cast to
    the same ObjectId.  The handlers above take their ids after that step;
    the routes below start from the text.  Which texts the driver takes
    for an ObjectId is the driver's business, so the cast is a parameter,
    as is the text of its error. *)

(** The largest time value of a JavaScript [Date], in milliseconds. *)
Definition maxDate : Z := 8640000000000000.

(** A number that is the time value of a valid [Date]. *)
Definition validDate (d : Date) : bool :=
  (Z.abs d <=? maxDate)%Z.

(** The paths of a cancellation record after [minimize]: an object with
    nothing in it is not stored. *)
Definition minimizeCancellation (c : option CancellationReason)
    : option CancellationReason :=
  match c with
  | Some {| reason := None; comment := None; cancelledAt := None |} => None
  | other => other
  end.

(** The same for the [Object] path [tracking]. *)
Definition minimizeMixed (m : option Mixed) : option Mixed :=
  match m with
  | Some (MObj []) => None
  | other => other
  end.

Section Casting.
Variable castObjectId : string -> option ObjectId.
Variable castMessage : string -> string.

(** What the model constructor and the validation of [save] make of the
    data of a new order: [None] when a path does not cast (an [_id] that
    is no ObjectId, a [cancelledAt] that is no date), otherwise the data
    with the [_id] as an ObjectId and without empty objects. *)
Definition castOrderData (data : OrderBody) : option OrderBody :=
  let dateOk :=
    match n_cancellationReason data with
    | Some {| cancelledAt := Some d |} => validDate d
    | _ => true
    end in
  let idCast :=
    match n__id data with
    | None => Some None
    | Some text => option_map Some (castObjectId text)
    end in
  match idCast with
  | None => None
  | Some i =>
      if dateOk then
        Some {| n__id := i;
                n_userId := n_userId data;
                n_id := n_id data;
                n_date := n_date data;
                n_items := n_items data;
                n_total := n_total data;
                n_status := n_status data;
                n_tracking := minimizeMixed (n_tracking data);
                n_paymentMethod := n_paymentMethod data;
                n_address := n_address data;
                n_cancellationReason := minimizeCancellation (n_cancellationReason data) |}
      else None
  end.

(** The text of the error of an order that does not cast. *)
Definition orderCastMessage (data : OrderBody) : string :=
  castMessage (match n__id data with Some text => text | None => "" end).

(** [POST /api/orders], from the body as it arrives.  The order is saved
    before the caller's count is looked up, so a [userId] that does not
    cast is answered 500 with the order stored. *)
Definition route_post_api_orders (user : Claims) (body : OrderBody)
    (fresh : ObjectId) (db : Db) : Response Order.t * Db :=
  match castOrderData (orderData body user) with
  | None => (Error 500 (orderCastMessage body), db)
  | Some data =>
      let order := newOrder data fresh in
      match findOrderById (Order._id order) (db_orders db) with
      | Some _ => (Error 500 duplicateKey, db)
      | None =>
          let saved := withOrders db (db_orders db ++ [order]) in
          match castObjectId (c_userId user) with
          | None => (Error 500 (castMessage (c_userId user)), saved)
          | Some uid =>
              let (_, docs) :=
                findOneAndUpdate (fun u => User._id u =? uid) incOrders
                  (db_users saved) in
              (Json 201 order, withUsers saved docs)
          end
      end
  end.

(** [PUT /api/orders/:id], from the text of [:id]. *)
Definition route_put_api_orders_id (user : Claims) (id : string)
    (body : OrderStatusBody) (now : Date) (db : Db) : Response Order.t * Db :=
  match castObjectId id with
  | None => (Error 500 (castMessage id), db)
  | Some i => put_api_orders_id user i body now db
  end.

(** [PUT /api/admin/orders/:id], from the text of [:id]. *)
Definition route_put_api_admin_orders_id (user : Claims) (id : string)
    (body : OrderStatusBody) (now : Date) (db : Db) : Response Order.t * Db :=
  match castObjectId id with
  | None => (Error 500 (castMessage id), db)
  | Some i => put_api_admin_orders_id user i body now db
  end.

(** [GET /api/user], from the [userId] of the token. *)
Definition route_get_api_user (user : Claims) (db : Db) : Response Profile * Db :=
  match castObjectId (c_userId user) with
  | None => (Error 500 (castMessage (c_userId user)), db)
  | Some i =>
      match findUserById i (db_users db) with
      | None => (Error 404 "User not found", db)
      | Some u => (Json 200 (selectWithoutPassword u), db)
      end
  end.

(** [PUT /api/user], from the [userId] of the token. *)
Definition route_put_api_user (user : Claims) (body : ProfileBody) (db : Db)
    : Response (option Profile) * Db :=
  match castObjectId (c_userId user) with
  | None => (Error 500 (castMessage (c_userId user)), db)
  | Some i =>
      let (updatedUser, docs) :=
        findOneAndUpdate (fun u => User._id u =? i) (applyProfile body)
          (db_users db) in
      (Json 200 (option_map selectWithoutPassword updatedUser), withUsers db docs)
  end.

(** The body of a new blog post after the cast of its [_id]. *)
Definition castBlogBody (body : BlogBody) : option BlogBody :=
  match g__id body with
  | None => Some body
  | Some text =>
      match castObjectId text with
      | None => None
      | Some i =>
          Some {| g__id := Some i;
                  g_title := g_title body;
                  g_excerpt := g_excerpt body;
                  g_content := g_content body;
                  g_author := g_author body;
                  g_date := g_date body;
                  g_category := g_category body;
                  g_image := g_image body |}
      end
  end.

(** [POST /api/blog], from the body as it arrives. *)
Definition route_post_api_blog (body : BlogBody) (fresh : ObjectId)
    (posts : list BlogPost.t) : Response BlogPost.t * list BlogPost.t :=
  match castBlogBody body with
  | None =>
      (Error 400 (castMessage (match g__id body with Some t => t | None => "" end)),
       posts)
  | Some data => post_api_blog data fresh posts
  end.

(** [GET /api/blog/:id], from the text of [:id]. *)
Definition route_get_api_blog_id (id : string) (posts : list BlogPost.t)
    : Response BlogPost.t :=
  match castObjectId id with
  | None => Error 500 (castMessage id)
  | Some i => get_api_blog_id i posts
  end.

(** [DELETE /api/admin/blog/:id], from the text of [:id]. *)
Definition route_delete_api_admin_blog_id (user : Claims) (id : string)
    (posts : list BlogPost.t) : Response string * list BlogPost.t :=
  match castObjectId id with
  | None => (Error 500 (castMessage id), posts)
  | Some i => delete_api_admin_blog_id user i posts
  end.

(** [DELETE /api/admin/products/:id], from the text of [:id]. *)
Definition route_delete_api_admin_products_id (user : Claims) (id : string)
    (products : list Product.t) : Response string * list Product.t :=
  match castObjectId id with
  | None => (Error 500 (castMessage id), products)
  | Some i => delete_api_admin_products_id user i products
  end.
End Casting.

(** ** Vocabulary of the properties of histories and tokens *)

(** The status code with which an order request is answered. *)
Definition answered (r : OrderRequest) (db : Db) : Z :=
  match r with
  | PostOrder user body fresh => statusCode (fst (post_api_orders user body fresh db))
  | PutOrder user i body now => statusCode (fst (put_api_orders_id user i body now db))
  | AdminPutOrder user i body now =>
      statusCode (fst (put_api_admin_orders_id user i body now db))
  end.

(** The record that [r] asks to put on order [i]: the reason and comment of
    its body with the time at which it is served, when [r] is a status
    update of [i] to ["Cancelled"] that supplies a reason. *)
Definition requestedRecord (r : OrderRequest) (i : ObjectId)
    : option CancellationReason :=
  match r with
  | PostOrder _ _ _ => None
  | PutOrder _ j body now | AdminPutOrder _ j body now =>
      match b_status body, b_cancellationReason body with
      | Some s, Some c =>
          if (j =? i) && (s =? "Cancelled")
          then Some {| reason := reason c; comment := comment c;
                       cancelledAt := Some now |}
          else None
      | _, _ => None
      end
  end.

(** Along a history served from [db]: the record requested by the last
    cancelling update of order [i] that was answered 200, and [current]
    when there is none. *)
Fixpoint lastServedCancel (history : list OrderRequest) (db : Db) (i : ObjectId)
    (current : option CancellationReason) : option CancellationReason :=
  match history with
  | [] => current
  | r :: rest =>
      lastServedCancel rest (serve r db) i
        match requestedRecord r i with
        | Some rec => if (answered r db =? 200)%Z then Some rec else current
        | None => current
        end
  end.



(** The first millisecond at which a token issued at [issued] has
    expired: the start of second [iat + 24h] of the token clock. *)
Definition expiryMs (issued : Date) : Date :=
  ((clockTimestamp issued + 24 * 3600) * 1000)%Z.

(** ** Sample data with ObjectIds *)

Definition isHexDigit (c : ascii) : bool :=
  let n := nat_of_ascii c in
  ((48 <=? n) && (n <=? 57) || (97 <=? n) && (n <=? 102)
   || (65 <=? n) && (n <=? 70))%nat.

Definition lowerHex (c : ascii) : ascii :=
  let n := nat_of_ascii c in
  if ((65 <=? n) && (n <=? 70))%nat then ascii_of_nat (n + 32) else c.

Fixpoint allHex (s : string) : bool :=
  match s with
  | EmptyString => true
  | String c rest => isHexDigit c && allHex rest
  end.

Fixpoint lowerAll (s : string) : string :=
  match s with
  | EmptyString => EmptyString
  | String c rest => String (lowerHex c) (lowerAll rest)
  end.

(** The cast on the texts every version of the driver takes for an
    ObjectId: 24 hexadecimal digits, read without regard to case. *)
Definition hexObjectId (s : string) : option ObjectId :=
  if (String.length s =? 24)%nat && allHex s then Some (lowerAll s) else None.

Definition demo_message (value : string) : string :=
  ("Cast to ObjectId failed for value " ++ value)%string.

Definition danaId : ObjectId := "65a1b2c3d4e5f60718293a01".

Definition goneId : ObjectId := "65a1b2c3d4e5f60718293a0f".

Definition orderId1 : ObjectId := "65a1b2c3d4e5f60718293b01".

Definition dana : Claims :=
  {| c_userId := danaId; c_email := "dana@x.com"; c_iat := 0; c_exp := 86400 |}.

(** A verified identity whose user document is no longer stored. *)
Definition gone : Claims :=
  {| c_userId := goneId; c_email := "gone@x.com"; c_iat := 0; c_exp := 86400 |}.

Definition danaDoc : User.t :=
  {| User._id := danaId; User.firstName := Some "Dana"; User.lastName := Some "D";
     User.email := "dana@x.com"; User.password := "$2a$10$stored";
     User.phone := None; User.dateOfBirth := None; User.gender := None;
     User.address := None; User.city := None; User.state := None;
     User.zipCode := None; User.country := None; User.orders := 1%Z;
     User.profileImage := None; User.createdAt := 0%Z |}.

Definition danaOrder : Order.t :=
  {| Order._id := orderId1; Order.userId := Some danaId; Order.id := Some "ORD-1";
     Order.date := Some "2024-01-15"; Order.items := []; Order.total := Some 299%Z;
     Order.status := Some "Pending"; Order.tracking := None;
     Order.paymentMethod := Some "card"; Order.address := None;
     Order.cancellationReason := None |}.

Definition danaDb : Db := {| db_users := [danaDoc]; db_orders := [danaOrder] |}.

(** A creation body that names another owner, spells its [_id] in upper
    case and carries empty objects. *)
Definition upperCaseOrder : OrderBody :=
  {| n__id := Some "65A1B2C3D4E5F60718293B02"; n_userId := Some goneId;
     n_id := Some "ORD-2"; n_date := Some "2024-01-17";
     n_items := [MStr "sku-1"]; n_total := Some 99%Z;
     n_status := Some "Pending"; n_tracking := Some (MObj []);
     n_paymentMethod := Some "card"; n_address := None;
     n_cancellationReason :=
       Some {| reason := None; comment := None; cancelledAt := None |} |}.

(** What the cast makes of that body once the caller is its owner. *)
Definition upperCaseOrderData : OrderBody :=
  {| n__id := Some "65a1b2c3d4e5f60718293b02"; n_userId := Some danaId;
     n_id := Some "ORD-2"; n_date := Some "2024-01-17";
     n_items := [MStr "sku-1"]; n_total := Some 99%Z;
     n_status := Some "Pending"; n_tracking := None;
     n_paymentMethod := Some "card"; n_address := None;
     n_cancellationReason := None |}.

(** Creation bodies that do not cast. *)
Definition malformedIdOrder : OrderBody :=
  {| n__id := Some "o9"; n_userId := None; n_id := None; n_date := None;
     n_items := []; n_total := None; n_status := None; n_tracking := None;
     n_paymentMethod := None; n_address := None; n_cancellationReason := None |}.

Definition farDateOrder : OrderBody :=
  {| n__id := None; n_userId := None; n_id := None; n_date := None;
     n_items := []; n_total := None; n_status := None; n_tracking := None;
     n_paymentMethod := None; n_address := None;
     n_cancellationReason :=
       Some {| reason := Some "r"; comment := None;
               cancelledAt := Some 100000000000000000%Z |} |}.

Definition hexIds (k : nat) : ObjectId :=
  match k with
  | 0 => "65a1b2c3d4e5f60718293c00" | 1 => "65a1b2c3d4e5f60718293c01"
  | 2 => "65a1b2c3d4e5f60718293c02" | 3 => "65a1b2c3d4e5f60718293c03"
  | 4 => "65a1b2c3d4e5f60718293c04" | 5 => "65a1b2c3d4e5f60718293c05"
  | _ => "65a1b2c3d4e5f60718293c06"
  end%nat.

Definition hexBlog : list BlogPost.t := numbered hexIds 0 blogPosts.

Definition hexFirstPost : BlogPost.t :=
  newBlogPost
    (seedPost
       "The Future of Smartphones: What to Expect in 2024"
       "Discover the latest trends and innovations in smartphone technology for the coming year."
       "The smartphone industry is constantly evolving, with new features and technologies emerging every year. In 2024, we expect to see foldable phones becoming more mainstream, improved battery technology, and enhanced AI capabilities that will revolutionize how we interact with our devices."
       "Tech Insider" "2024-01-15" "Mobiles" "img/Best-phones-202.avif")
    "65a1b2c3d4e5f60718293c00".

(** A post that brings its own [_id], spelt in upper case. *)
Definition upperCasePost : BlogBody :=
  {| g__id := Some "65A1B2C3D4E5F60718293C0A"; g_title := Some "Draft";
     g_excerpt := None; g_content := Some "text"; g_author := Some "Dana";
     g_date := Some "2024-02-01"; g_category := Some "Mobiles"; g_image := None |}.

Definition upperCasePostData : BlogBody :=
  {| g__id := Some "65a1b2c3d4e5f60718293c0a"; g_title := Some "Draft";
     g_excerpt := None; g_content := Some "text"; g_author := Some "Dana";
     g_date := Some "2024-02-01"; g_category := Some "Mobiles"; g_image := None |}.

Definition hexCharger : Product.t := newProduct chargerBody "65a1b2c3d4e5f60718293d01".

Definition hexProducts : list Product.t := [hexCharger].

(** * Properties *)

(** ** Collections *)

Section CollectionFacts.
Context {A : Type}.
Variables (filter : A -> bool) (upd : A -> A).

Lemma updateOne_miss (docs : list A) :
  findOne filter docs = None -> updateOne filter upd docs = docs.
Proof.
  unfold findOne.
  induction docs as [|d rest IH]; simpl; [reflexivity|].
  destruct (filter d); [discriminate|].
  intros H. now rewrite IH.
Qed.

(** A hit splits the collection around the first match, which is the only
    document the update replaces. *)
Lemma updateOne_hit (docs : list A) (d : A) :
  findOne filter docs = Some d ->
  exists pre post,
    docs = pre ++ d :: post /\
    updateOne filter upd docs = pre ++ upd d :: post /\
    filter d = true /\
    Forall (fun x => filter x = false) pre.
Proof.
  unfold findOne.
  induction docs as [|x rest IH]; simpl; [discriminate|].
  destruct (filter x) eqn:Hx.
  - intros [= ->]. exists [], rest. repeat split; auto.
  - intros H. destruct (IH H) as (pre & post & -> & -> & Hd & Hpre).
    exists (x :: pre), post. repeat split; auto.
Qed.

Lemma updateOne_In (docs : list A) (x : A) :
  In x (updateOne filter upd docs) ->
  In x docs \/ exists d, In d docs /\ filter d = true /\ x = upd d.
Proof.
  induction docs as [|d rest IH]; simpl; [tauto|].
  destruct (filter d) eqn:Hd; simpl.
  - intros [<- | H]; [right; exists d; auto | left; auto].
  - intros [<- | H]; [left; auto|].
    destruct (IH H) as [H' | (d' & H1 & H2 & H3)]; [left; auto|].
    right. exists d'. auto.
Qed.

Lemma updateOne_map {B : Type} (key : A -> B) (docs : list A) :
  (forall d, key (upd d) = key d) ->
  map key (updateOne filter upd docs) = map key docs.
Proof.
  intros Hkey.
  induction docs as [|d rest IH]; simpl; [reflexivity|].
  destruct (filter d); simpl; [now rewrite Hkey | now rewrite IH].
Qed.

Lemma findOne_In (docs : list A) (d : A) :
  findOne filter docs = Some d -> In d docs /\ filter d = true.
Proof. apply find_some. Qed.

Lemma findOne_none (docs : list A) :
  findOne filter docs = None -> forall d, In d docs -> filter d = false.
Proof. intros H d. now apply find_none. Qed.

Lemma findOne_app (xs ys : list A) :
  findOne filter (xs ++ ys) =
  match findOne filter xs with
  | Some d => Some d
  | None => findOne filter ys
  end.
Proof.
  unfold findOne.
  induction xs as [|x xs IH]; simpl; [reflexivity|].
  now destruct (filter x).
Qed.
End CollectionFacts.

(** ** The [_id] index of the [orders] collection *)

Lemma findOne_unique (p : Order.t -> bool) (docs : list Order.t) (o : Order.t) :
  NoDup (map Order._id docs) ->
  In o docs ->
  p o = true ->
  (forall d, p d = true -> Order._id d = Order._id o) ->
  findOne p docs = Some o.
Proof.
  unfold findOne. intros Hnd Hin Hp Hid.
  induction docs as [|d rest IH]; simpl in *; [contradiction|].
  inversion Hnd as [|? ? Hnotin Hrest]; subst.
  destruct Hin as [-> | Hin]; [now rewrite Hp|].
  destruct (p d) eqn:Hd; [|now apply IH].
  exfalso. apply Hnotin. rewrite (Hid d Hd). now apply in_map.
Qed.

Lemma findOne_foreign (p : Order.t -> bool) (docs : list Order.t) (o : Order.t) :
  NoDup (map Order._id docs) ->
  In o docs ->
  p o = false ->
  (forall d, p d = true -> Order._id d = Order._id o) ->
  findOne p docs = None.
Proof.
  unfold findOne. intros Hnd Hin Hp Hid.
  induction docs as [|d rest IH]; simpl in *; [contradiction|].
  inversion Hnd as [|? ? Hnotin Hrest]; subst.
  destruct (p d) eqn:Hd.
  - exfalso. destruct Hin as [-> | Hin]; [congruence|].
    apply Hnotin. rewrite (Hid d Hd). now apply in_map.
  - destruct Hin as [-> | Hin]; [|now apply IH].
    destruct (find p rest) eqn:Hf; [|reflexivity].
    apply find_some in Hf. destruct Hf as [Hin' Hp'].
    exfalso. apply Hnotin. rewrite <- (Hid _ Hp'). now apply in_map.
Qed.

Lemma ownedBy_id (i : ObjectId) (owner : string) (d : Order.t) :
  ownedBy i owner d = true -> Order._id d = i.
Proof.
  unfold ownedBy. intros H. apply andb_true_iff in H.
  now apply String.eqb_eq.
Qed.

Lemma applyUpdate_id (u : OrderUpdate) (o : Order.t) :
  Order._id (applyUpdate u o) = Order._id o.
Proof. reflexivity. Qed.

(** ** Status updates *)

(** The four shapes of an update document: cancelling or not, with or
    without a reason. *)
Ltac update_data_cases body :=
  destruct (isCancelled (b_status body)), (b_cancellationReason body) as [?c|];
  simpl.

(** C1.  A self-service update to ["Cancelled"] of an order the caller owns
    is answered 200 with the updated order, and afterwards the [orders]
    collection holds that updated order in the place of the old one, every
    other order and every user being as before; the cancellation record of
    the stored order is the supplied reason and comment with [cancelledAt]
    set to the time of the call, whatever the order held before and
    whatever [cancelledAt] the body carried; without a reason the record
    stays as it was. *)
Theorem self_cancel_stores_stamped_reason
    (user : Claims) (i : ObjectId) (body : OrderStatusBody) (now : Date)
    (db : Db) (o : Order.t) :
  uniqueOrderIds db ->
  In o (db_orders db) ->
  Order._id o = i ->
  Order.userId o = Some (c_userId user) ->
  b_status body = Some "Cancelled" ->
  exists o' pre post,
    db_orders db = pre ++ o :: post /\
    fst (put_api_orders_id user i body now db) = Json 200 o' /\
    db_orders (snd (put_api_orders_id user i body now db)) = pre ++ o' :: post /\
    db_users (snd (put_api_orders_id user i body now db)) = db_users db /\
    Order._id o' = i /\
    Order.status o' = Some "Cancelled" /\
    Order.cancellationReason o'
      = cancellationAfter body now (Order.cancellationReason o).
Proof.
  intros Hnd Hin Hid Howner Hstatus.
  assert (Hfind : findOne (ownedBy i (c_userId user)) (db_orders db) = Some o).
  { apply findOne_unique; auto.
    - unfold ownedBy, isOwner. rewrite Hid, Howner, !String.eqb_refl. reflexivity.
    - intros d Hd. rewrite Hid. eapply ownedBy_id, Hd. }
  destruct (updateOne_hit _ (applyUpdate (selfUpdateData body now)) _ _ Hfind)
    as (pre & post & Hsplit & Hupd & _ & _).
  exists (applyUpdate (selfUpdateData body now) o), pre, post.
  split; [exact Hsplit|].
  unfold put_api_orders_id, findOneAndUpdate. rewrite Hfind. simpl.
  split; [reflexivity|]. split; [exact Hupd|]. split; [reflexivity|].
  split; [exact Hid|].
  unfold selfUpdateData, cancellationAfter, stampCancellation.
  rewrite Hstatus. simpl.
  destruct (b_cancellationReason body); simpl; auto.
Qed.

(** C4.  A self-service update aimed at an existing order of somebody else
    answers 404 and leaves the database as it was. *)
Theorem self_update_foreign_order_not_found
    (user : Claims) (i : ObjectId) (body : OrderStatusBody) (now : Date)
    (db : Db) (o : Order.t) :
  uniqueOrderIds db ->
  In o (db_orders db) ->
  Order._id o = i ->
  Order.userId o <> Some (c_userId user) ->
  put_api_orders_id user i body now db = (Error 404 "Order not found", db).
Proof.
  intros Hnd Hin Hid Howner.
  assert (Hfind : findOne (ownedBy i (c_userId user)) (db_orders db) = None).
  { apply findOne_foreign with (o := o); auto.
    - unfold ownedBy, isOwner.
      destruct (Order.userId o) as [u|] eqn:Hu; [|now rewrite andb_false_r].
      destruct (String.eqb_spec u (c_userId user)) as [->|]; [now elim Howner|].
      now rewrite andb_false_r.
    - intros d Hd. rewrite Hid. eapply ownedBy_id, Hd. }
  unfold put_api_orders_id, findOneAndUpdate. now rewrite Hfind.
Qed.

(** The lookup of the self-service update asks for both the id and the
    owner: whatever it finds has the requested [_id] and the caller as
    [userId]. *)
Lemma self_update_lookup_scoped (i : ObjectId) (owner : string)
    (docs : list Order.t) (o : Order.t) :
  findOne (ownedBy i owner) docs = Some o ->
  Order._id o = i /\ Order.userId o = Some owner.
Proof.
  intros H. apply findOne_In in H. destruct H as [_ H].
  unfold ownedBy, isOwner in H. apply andb_true_iff in H. destruct H as [H1 H2].
  apply String.eqb_eq in H1. split; [exact H1|].
  destruct (Order.userId o); [|discriminate].
  apply String.eqb_eq in H2. now subst.
Qed.

(** C10.  The admin update never sets [tracking]: its update document has
    no such key whatever the body says, every stored order keeps its
    tracking value (and the users are untouched), while the self-service
    update document carries the body's tracking value as it is. *)
Theorem admin_update_keeps_tracking
    (user : Claims) (i : ObjectId) (body : OrderStatusBody) (now : Date) (db : Db) :
  set_tracking (adminUpdateData body now) = None /\
  set_status (adminUpdateData body now) = b_status body /\
  map Order.tracking (db_orders (snd (put_api_admin_orders_id user i body now db)))
    = map Order.tracking (db_orders db) /\
  db_users (snd (put_api_admin_orders_id user i body now db)) = db_users db /\
  set_tracking (selfUpdateData body now) = b_tracking body /\
  (forall o, Order.tracking (applyUpdate (selfUpdateData body now) o)
             = orElse (b_tracking body) (Order.tracking o)).
Proof.
  assert (Hadm : set_tracking (adminUpdateData body now) = None).
  { unfold adminUpdateData. update_data_cases body; reflexivity. }
  assert (Hself : set_tracking (selfUpdateData body now) = b_tracking body).
  { unfold selfUpdateData. update_data_cases body; reflexivity. }
  repeat split; auto.
  - unfold adminUpdateData. update_data_cases body; reflexivity.
  - unfold put_api_admin_orders_id, findOneAndUpdate.
    destruct (findOne _ (db_orders db)); simpl; [|reflexivity].
    apply updateOne_map. intros d. simpl. now rewrite Hadm.
  - unfold put_api_admin_orders_id, findOneAndUpdate.
    destruct (findOne _ (db_orders db)); reflexivity.
  - intros o. simpl. now rewrite Hself.
Qed.

(** ** Creating an order *)

Lemma findOrderById_free (i : ObjectId) (docs : list Order.t) :
  (forall d, In d docs -> Order._id d <> i) -> findOrderById i docs = None.
Proof.
  intros H. unfold findOrderById, findOne.
  destruct (find _ docs) as [d|] eqn:Hf; [|reflexivity].
  apply find_some in Hf. destruct Hf as [Hin Heq].
  apply String.eqb_eq in Heq. now elim (H d Hin).
Qed.

(** A creation that the store rejects changes nothing, the count
    included. *)
Lemma create_order_duplicate
    (user : Claims) (body : OrderBody) (fresh : ObjectId) (db : Db) (d : Order.t) :
  findOrderById (newOrderId body fresh) (db_orders db) = Some d ->
  post_api_orders user body fresh db = (Error 500 duplicateKey, db).
Proof.
  intros H. unfold post_api_orders.
  change (Order._id (newOrder (orderData body user) fresh)) with (newOrderId body fresh).
  now rewrite H.
Qed.

(** ** Listing orders *)

Lemma string_compare_trans (s1 s2 s3 : string) :
  String.compare s1 s2 <> Gt -> String.compare s2 s3 <> Gt ->
  String.compare s1 s3 <> Gt.
Proof.
  revert s2 s3.
  induction s1 as [|a s1 IH]; intros [|b s2] [|c s3]; simpl; try congruence.
  unfold Ascii.compare.
  destruct (N.compare_spec (N_of_ascii a) (N_of_ascii b)) as [Hab|Hab|Hab];
    destruct (N.compare_spec (N_of_ascii b) (N_of_ascii c)) as [Hbc|Hbc|Hbc];
    destruct (N.compare_spec (N_of_ascii a) (N_of_ascii c)) as [Hac|Hac|Hac];
    try congruence; try lia.
  apply IH.
Qed.

Lemma string_leb_trans (s1 s2 s3 : string) :
  String.leb s1 s2 = true -> String.leb s2 s3 = true -> String.leb s1 s3 = true.
Proof.
  unfold String.leb. intros H12 H23.
  assert (H : String.compare s1 s3 <> Gt).
  { apply string_compare_trans with s2.
    - destruct (String.compare s1 s2); congruence.
    - destruct (String.compare s2 s3); congruence. }
  destruct (String.compare s1 s3); congruence.
Qed.

Lemma date_leb_trans (a b c : option string) :
  date_leb a b = true -> date_leb b c = true -> date_leb a c = true.
Proof.
  destruct a as [a|], b as [b|], c as [c|]; simpl; try congruence.
  apply string_leb_trans.
Qed.

Lemma date_leb_total (a b : option string) :
  date_leb a b = true \/ date_leb b a = true.
Proof.
  destruct a as [a|], b as [b|]; simpl; auto.
  apply String.leb_total.
Qed.

Lemma insertByDateDesc_perm (o : Order.t) (docs : list Order.t) :
  Permutation (insertByDateDesc o docs) (o :: docs).
Proof.
  induction docs as [|d rest IH]; simpl; [reflexivity|].
  destruct (date_leb (Order.date d) (Order.date o)); [reflexivity|].
  rewrite IH. apply perm_swap.
Qed.

Lemma sortByDateDesc_perm (docs : list Order.t) :
  Permutation (sortByDateDesc docs) docs.
Proof.
  induction docs as [|d rest IH]; simpl; [reflexivity|].
  rewrite insertByDateDesc_perm. now apply perm_skip.
Qed.

Lemma insertByDateDesc_sorted (o : Order.t) (docs : list Order.t) :
  StronglySorted notOlder docs -> StronglySorted notOlder (insertByDateDesc o docs).
Proof.
  induction 1 as [|d rest Hrest IH Hd]; simpl.
  - repeat constructor.
  - destruct (date_leb (Order.date d) (Order.date o)) eqn:Hcmp.
    + constructor; [now constructor|].
      constructor; [exact Hcmp|].
      rewrite Forall_forall in *. intros x Hx.
      unfold notOlder in *. eapply date_leb_trans; [apply Hd, Hx | exact Hcmp].
    + constructor; [exact IH|].
      rewrite Forall_forall in *. intros x Hx.
      apply (Permutation_in _ (insertByDateDesc_perm o rest)) in Hx.
      destruct Hx as [<- | Hx]; [|now apply Hd].
      unfold notOlder.
      destruct (date_leb_total (Order.date o) (Order.date d)); congruence.
Qed.

Lemma sortByDateDesc_sorted (docs : list Order.t) :
  StronglySorted notOlder (sortByDateDesc docs).
Proof.
  induction docs as [|d rest IH]; simpl; [constructor|].
  now apply insertByDateDesc_sorted.
Qed.

Lemma isOwner_spec (owner : string) (o : Order.t) :
  isOwner owner o = true <-> Order.userId o = Some owner.
Proof.
  unfold isOwner. destruct (Order.userId o) as [u|]; [|split; discriminate].
  rewrite String.eqb_eq. split; [now intros -> | now intros [= ->]].
Qed.

(** C8.  Listing orders answers 200 with a rearrangement of the stored
    orders whose [userId] is the caller: an order is listed exactly when it
    is stored with that owner, and along the list the [date] never
    increases, dates compared as strings (a missing date last).  The
    database is not changed. *)
Theorem list_orders_owned_newest_first (user : Claims) (db : Db) :
  exists listed,
    get_api_orders user db = (Json 200 listed, db) /\
    Permutation listed (filter (isOwner (c_userId user)) (db_orders db)) /\
    (forall o, In o listed <->
               In o (db_orders db) /\ Order.userId o = Some (c_userId user)) /\
    StronglySorted notOlder listed.
Proof.
  exists (sortByDateDesc (filter (isOwner (c_userId user)) (db_orders db))).
  split; [reflexivity|].
  split; [apply sortByDateDesc_perm|].
  split; [|apply sortByDateDesc_sorted].
  intros o. rewrite <- isOwner_spec, <- filter_In.
  split; apply Permutation_in;
    [apply sortByDateDesc_perm | symmetry; apply sortByDateDesc_perm].
Qed.

(** ** Histories *)

Lemma serveAll_snoc (history : list OrderRequest) (r : OrderRequest) (db : Db) :
  serveAll (history ++ [r]) db = serve r (serveAll history db).
Proof. unfold serveAll. now rewrite fold_left_app. Qed.

Lemma isCancelled_spec (s : option string) :
  isCancelled s = true <-> s = Some "Cancelled".
Proof.
  unfold isCancelled. destruct s as [s|]; [|split; discriminate].
  rewrite String.eqb_eq. split; [now intros -> | now intros [= ->]].
Qed.

(** Either update document sets the cancellation record exactly when the
    new status is ["Cancelled"] and the body has a reason, and then to that
    reason stamped with the time of the call. *)
Ltac stamped_reason_iff :=
  split; try discriminate;
  try (now intros [? _]); try (now intros [_ (? & ? & _)]);
  try (now intros [= <-]; eauto);
  try (intros [_ (? & [= <-] & ->)]; reflexivity).

Lemma selfUpdateData_cancellation (body : OrderStatusBody) (now : Date)
    (rec : CancellationReason) :
  set_cancellationReason (selfUpdateData body now) = Some rec <->
  b_status body = Some "Cancelled" /\
  exists c, b_cancellationReason body = Some c /\ rec = stampCancellation c now.
Proof.
  unfold selfUpdateData. rewrite <- isCancelled_spec.
  update_data_cases body; stamped_reason_iff.
Qed.

Lemma adminUpdateData_cancellation (body : OrderStatusBody) (now : Date)
    (rec : CancellationReason) :
  set_cancellationReason (adminUpdateData body now) = Some rec <->
  b_status body = Some "Cancelled" /\
  exists c, b_cancellationReason body = Some c /\ rec = stampCancellation c now.
Proof.
  unfold adminUpdateData. rewrite <- isCancelled_spec.
  update_data_cases body; stamped_reason_iff.
Qed.

Lemma recordOrigin_snoc (history : list OrderRequest) (r : OrderRequest)
    (i : ObjectId) (rec : CancellationReason) :
  recordOrigin history i rec -> recordOrigin (history ++ [r]) i rec.
Proof.
  intros [(r' & c & now & Hin & H) | (r' & Hin & H)]; [left | right].
  - exists r', c, now. split; [apply in_or_app; now left | exact H].
  - exists r'. split; [apply in_or_app; now left | exact H].
Qed.

(** One status update keeps every record it does not write, and writes one
    only as a stamped reason. *)
Lemma update_record_origin (history : list OrderRequest) (r : OrderRequest)
    (i : ObjectId) (p : Order.t -> bool) (u : OrderUpdate) (body : OrderStatusBody)
    (now : Date) (docs : list Order.t) :
  (forall d, p d = true -> Order._id d = i) ->
  (forall rec, set_cancellationReason u = Some rec ->
     b_status body = Some "Cancelled" /\
     exists c, b_cancellationReason body = Some c /\ rec = stampCancellation c now) ->
  (forall c, b_status body = Some "Cancelled" -> b_cancellationReason body = Some c ->
     cancelsWithReason r i c now) ->
  (forall o rec, In o docs -> Order.cancellationReason o = Some rec ->
     recordOrigin history (Order._id o) rec) ->
  forall o rec, In o (updateOne p (applyUpdate u) docs) ->
    Order.cancellationReason o = Some rec ->
    recordOrigin (history ++ [r]) (Order._id o) rec.
Proof.
  intros Hp Hset Hreq IH o rec Hin Hrec.
  apply updateOne_In in Hin.
  destruct Hin as [Hin | (d & Hin & Hd & ->)].
  - apply recordOrigin_snoc. now apply IH.
  - simpl in Hrec. rewrite applyUpdate_id.
    destruct (set_cancellationReason u) as [x|] eqn:Hx; simpl in Hrec.
    + injection Hrec as ->.
      destruct (Hset rec eq_refl) as (Hst & c & Hc & ->).
      left. exists r, c, now. rewrite (Hp d Hd).
      split; [apply in_or_app; right; now left|].
      split; [now apply Hreq | reflexivity].
    + apply recordOrigin_snoc. now apply IH.
Qed.

Lemma serve_record_origin (history : list OrderRequest) (r : OrderRequest) (db : Db) :
  (forall o rec, In o (db_orders db) -> Order.cancellationReason o = Some rec ->
     recordOrigin history (Order._id o) rec) ->
  forall o rec, In o (db_orders (serve r db)) ->
    Order.cancellationReason o = Some rec ->
    recordOrigin (history ++ [r]) (Order._id o) rec.
Proof.
  intros IH o rec.
  destruct r as [user body fresh | user i body now | user i body now]; simpl.
  - unfold post_api_orders.
    destruct (findOrderById _ (db_orders db)); simpl.
    + intros Hin Hrec. apply recordOrigin_snoc. now apply IH.
    + unfold findOneAndUpdate.
      destruct (findOne _ (db_users db)); simpl;
        (intros Hin Hrec; apply in_app_or in Hin;
         destruct Hin as [Hin | [<- | []]];
         [apply recordOrigin_snoc; now apply IH|];
         right; exists (PostOrder user body fresh);
         split; [apply in_or_app; right; now left | now split]).
  - unfold put_api_orders_id, findOneAndUpdate.
    destruct (findOne _ (db_orders db)); simpl.
    + apply update_record_origin with (i := i) (body := body) (now := now); auto.
      * intros d. apply ownedBy_id.
      * intros x. apply selfUpdateData_cancellation.
      * intros c H1 H2. simpl. auto.
    + intros Hin Hrec. apply recordOrigin_snoc. now apply IH.
  - unfold put_api_admin_orders_id, findOneAndUpdate.
    destruct (findOne _ (db_orders db)); simpl.
    + apply update_record_origin with (i := i) (body := body) (now := now); auto.
      * intros d. apply String.eqb_eq.
      * intros x. apply adminUpdateData_cancellation.
      * intros c H1 H2. simpl. auto.
    + intros Hin Hrec. apply recordOrigin_snoc. now apply IH.
Qed.

(** After any history of order creations and status updates, a
    cancellation record stored on an order is either the reason of a status
    update of that order to ["Cancelled"], stamped with the time at which
    that update was served, or the record that the order's creation body
    carried. *)
Lemma cancellation_record_origin
    (history : list OrderRequest) (o : Order.t) (rec : CancellationReason) :
  In o (db_orders (serveAll history emptyDb)) ->
  Order.cancellationReason o = Some rec ->
  recordOrigin history (Order._id o) rec.
Proof.
  revert o rec.
  induction history as [|r history IH] using rev_ind; intros o rec.
  - intros [].
  - rewrite serveAll_snoc. now apply serve_record_origin.
Qed.

Lemma updateOne_keeps (p : Order.t -> bool) (f : Order.t -> Order.t)
    (docs : list Order.t) (o : Order.t) :
  In o docs -> In o (updateOne p f docs) \/ In (f o) (updateOne p f docs).
Proof.
  induction docs as [|d rest IH]; simpl; [tauto|].
  intros [-> | Hin]; destruct (p _); simpl; auto.
  destruct (IH Hin); auto.
Qed.

(** No request clears a cancellation record: an order that has one still
    has one, under the same [_id], after any further request, whatever
    status that request sets. *)
Lemma serve_keeps_record (r : OrderRequest) (db : Db) (o : Order.t) :
  In o (db_orders db) ->
  Order.cancellationReason o <> None ->
  exists o', In o' (db_orders (serve r db)) /\
             Order._id o' = Order._id o /\
             Order.cancellationReason o' <> None.
Proof.
  intros Hin Hrec.
  assert (Hupd : forall p u,
            exists o', In o' (updateOne p (applyUpdate u) (db_orders db)) /\
                       Order._id o' = Order._id o /\
                       Order.cancellationReason o' <> None).
  { intros p u.
    destruct (updateOne_keeps p (applyUpdate u) _ _ Hin) as [H | H];
      [exists o | exists (applyUpdate u o)]; repeat split; auto.
    simpl. destruct (set_cancellationReason u); simpl; [discriminate | exact Hrec]. }
  destruct r as [user body fresh | user i body now | user i body now]; simpl.
  - exists o. repeat split; auto.
    unfold post_api_orders.
    destruct (findOrderById _ (db_orders db)); simpl; [exact Hin|].
    unfold findOneAndUpdate.
    match goal with
    | |- context [findOne ?p ?l] => destruct (findOne p l)
    end; simpl; apply in_or_app; now left.
  - unfold put_api_orders_id, findOneAndUpdate.
    destruct (findOne _ (db_orders db)); simpl; [apply Hupd | exists o; auto].
  - unfold put_api_admin_orders_id, findOneAndUpdate.
    destruct (findOne _ (db_orders db)); simpl; [apply Hupd | exists o; auto].
Qed.

(** *** Two histories *)




(** Every history keeps the [_id]s of the stored orders distinct. *)
Lemma serve_uniqueOrderIds (r : OrderRequest) (db : Db) :
  uniqueOrderIds db -> uniqueOrderIds (serve r db).
Proof.
  unfold uniqueOrderIds.
  destruct r as [user body fresh | user i body now | user i body now]; simpl.
  - unfold post_api_orders.
    destruct (findOrderById _ (db_orders db)) eqn:Hfind; [auto|].
    unfold findOneAndUpdate.
    assert (Hgoal : NoDup (map Order._id (db_orders db)) ->
              NoDup (map Order._id
                (db_orders db ++ [newOrder (orderData body user) fresh]))).
    { intros Hnd. rewrite map_app. simpl.
      apply NoDup_rev in Hnd. rewrite <- rev_involutive.
      apply NoDup_rev. rewrite rev_app_distr. simpl.
      constructor; [|exact Hnd].
      rewrite <- in_rev. intros Hin. apply in_map_iff in Hin.
      destruct Hin as (d & Hid & Hin).
      pose proof (findOne_none _ _ Hfind d Hin) as Hne.
      simpl in Hne. apply String.eqb_neq in Hne. now elim Hne. }
    match goal with
    | |- context [findOne ?p ?l] => destruct (findOne p l); exact Hgoal
    end.
  - unfold put_api_orders_id, findOneAndUpdate.
    destruct (findOne _ (db_orders db)); simpl; [|auto].
    now rewrite updateOne_map.
  - unfold put_api_admin_orders_id, findOneAndUpdate.
    destruct (findOne _ (db_orders db)); simpl; [|auto].
    now rewrite updateOne_map.
Qed.















(** ** Accounts and tokens *)

Lemma findUserById_free (i : ObjectId) (docs : list User.t) :
  (forall d, In d docs -> User._id d <> i) -> findUserById i docs = None.
Proof.
  intros H. unfold findUserById, findOne.
  destruct (find _ docs) as [d|] eqn:Hf; [|reflexivity].
  apply find_some in Hf. destruct Hf as [Hin Heq].
  apply String.eqb_eq in Heq. now elim (H d Hin).
Qed.

Lemma findByEmail_free (e : string) (docs : list User.t) :
  (forall d, In d docs -> User.email d <> e) ->
  findOne (fun u => User.email u =? e) docs = None.
Proof.
  intros H. unfold findOne.
  destruct (find _ docs) as [d|] eqn:Hf; [|reflexivity].
  apply find_some in Hf. destruct Hf as [Hin Heq].
  apply String.eqb_eq in Heq. now elim (H d Hin).
Qed.

Section ServerFacts.
Variable env_JWT_SECRET : option string.
Variable hmacSHA256 : string -> Claims -> string.
Variable parseToken : string -> option Token.
Variable bcrypt_hash : string -> Z -> string -> string.
Variable bcrypt_compare : string -> string -> bool.

Local Abbreviation secret := (JWT_SECRET env_JWT_SECRET).
Local Abbreviation sign := (jwt_sign hmacSHA256).
Local Abbreviation verify := (jwt_verify hmacSHA256).
Local Abbreviation register := (post_api_register env_JWT_SECRET hmacSHA256 bcrypt_hash).
Local Abbreviation login := (post_api_login env_JWT_SECRET hmacSHA256 bcrypt_compare).
Local Abbreviation changePassword := (put_api_user_password bcrypt_hash bcrypt_compare).

(** What verification of a token comes to: with the signing key, only
    the clock decides. *)
Lemma jwt_verify_sign (userId : ObjectId) (email key : string)
    (expiresIn : Z) (issued now : Date) :
  verify (sign userId email key expiresIn issued) key now =
  if (clockTimestamp issued + expiresIn <=? clockTimestamp now)%Z
  then inl TokenExpiredError
  else inr {| c_userId := userId; c_email := email;
              c_iat := clockTimestamp issued;
              c_exp := (clockTimestamp issued + expiresIn)%Z |}.
Proof.
  unfold jwt_verify, jwt_sign. simpl.
  now rewrite String.eqb_refl.
Qed.

Lemma clock_before_expiry (issued now : Date) :
  (clockTimestamp issued + 24 * 3600 <= clockTimestamp now)%Z <->
  (expiryMs issued <= now)%Z.
Proof.
  unfold expiryMs, clockTimestamp. split; intros H.
  - apply Z.le_trans with (1000 * (now / 1000))%Z.
    + rewrite (Z.mul_comm _ 1000). apply Z.mul_le_mono_nonneg_l; [lia | exact H].
    + apply Z.mul_div_le. lia.
  - apply Z.div_le_lower_bound; [lia|]. now rewrite Z.mul_comm.
Qed.

(** C6, as the code has it.  A token that the handlers issue at time
    [issued] (in milliseconds) carries the user id, the email,
    [iat = floor(issued / 1000)] seconds and [exp = iat + 24h].  Verifying
    it with the server's key yields that payload at every time before
    [expiryMs issued], the start of second [exp], and [TokenExpiredError]
    from then on; no other failure is possible.  That instant lies between
    [issued + 24h - 999 ms] and [issued + 24h]: the token is rejected at
    and after [issued + 24h], and is accepted on all of
    [[issued, issued + 24h)] only when it was issued on a whole second. *)
Theorem token_valid_until_expiry_second
    (userId : ObjectId) (email : string) (issued now : Date) :
  let token := sign userId email secret expiresIn_24h issued in
  let identity :=
    {| c_userId := userId; c_email := email;
       c_iat := clockTimestamp issued;
       c_exp := (clockTimestamp issued + 24 * 3600)%Z |} in
  ((now < expiryMs issued)%Z -> verify token secret now = inr identity) /\
  ((expiryMs issued <= now)%Z -> verify token secret now = inl TokenExpiredError) /\
  (forall e, verify token secret now = inl e ->
     e = TokenExpiredError /\ (expiryMs issued <= now)%Z) /\
  (issued + 24 * 3600 * 1000 - 999 <= expiryMs issued <= issued + 24 * 3600 * 1000)%Z /\
  ((issued + 24 * 3600 * 1000 <= now)%Z ->
     verify token secret now = inl TokenExpiredError).
Proof.
  intros token identity. subst token identity.
  rewrite jwt_verify_sign.
  change expiresIn_24h with (24 * 3600)%Z.
  assert (Hbounds : (issued + 24 * 3600 * 1000 - 999 <= expiryMs issued
                     <= issued + 24 * 3600 * 1000)%Z).
  { unfold expiryMs, clockTimestamp.
    pose proof (Z.div_mod issued 1000 ltac:(lia)) as Hdm.
    pose proof (Z.mod_pos_bound issued 1000 ltac:(lia)) as Hm. lia. }
  pose proof (clock_before_expiry issued now) as Hclock.
  destruct (Z.leb_spec (clockTimestamp issued + 24 * 3600) (clockTimestamp now))
    as [Hle | Hlt].
  - apply Hclock in Hle.
    split; [lia|]. split; [reflexivity|].
    split; [intros e [= <-]; now split|]. split; [exact Hbounds | reflexivity].
  - assert (Hnow : (now < expiryMs issued)%Z).
    { destruct (Z.lt_ge_cases now (expiryMs issued)) as [|Hge]; [assumption|].
      apply Hclock in Hge. lia. }
    split; [reflexivity|]. split; [lia|].
    split; [discriminate|]. split; [exact Hbounds | lia].
Qed.

(** The middleware lets a request through exactly as [jwt.verify]
    decides, for a header whose second word reads back as the token. *)
Lemma authenticateToken_verify (header text : string) (token : Token) (now : Date) :
  bearerToken (Some header) = Some text ->
  parseToken text = Some token ->
  authenticateToken env_JWT_SECRET hmacSHA256 parseToken (Some header) now =
  match verify token secret now with
  | inl _ => Reply 403 "Invalid or expired token"
  | inr user => Next user
  end.
Proof.
  intros Hb Hp. unfold authenticateToken. now rewrite Hb, Hp.
Qed.

Lemma authenticateToken_missing (now : Date) :
  authenticateToken env_JWT_SECRET hmacSHA256 parseToken None now
  = Reply 401 "Access token required".
Proof. reflexivity. Qed.

(** C7.  For a caller with a user document [u]: a [currentPassword] that
    bcrypt does not accept against the stored hash gets 400 and the
    database stays as it was, the stored hash included; one that it accepts
    gets 200 and [u], and only [u], has its password replaced by the hash
    of the new one. *)
Theorem change_password_checks_current
    (user : Claims) (body : PasswordBody) (salt : string) (db : Db) (u : User.t) :
  findUserById (c_userId user) (db_users db) = Some u ->
  (bcrypt_compare (currentPassword body) (User.password u) = false ->
     changePassword user body salt db
       = (Error 400 "Current password is incorrect", db)) /\
  (bcrypt_compare (currentPassword body) (User.password u) = true ->
     exists pre post,
       db_users db = pre ++ u :: post /\
       changePassword user body salt db
         = (Json 200 "Password updated successfully",
            withUsers db
              (pre ++ setPassword (bcrypt_hash (newPassword body) 10 salt) u :: post))).
Proof.
  intros Hu. unfold put_api_user_password. rewrite Hu.
  split; intros Hcmp; rewrite Hcmp; simpl; [reflexivity|].
  pose proof (findOne_In _ _ _ Hu) as [_ Hid]. apply String.eqb_eq in Hid.
  rewrite Hid.
  destruct (updateOne_hit _ (setPassword (bcrypt_hash (newPassword body) 10 salt))
              _ _ Hu) as (pre & post & Hsplit & Hupd & _).
  exists pre, post. split; [exact Hsplit|].
  now rewrite Hupd.
Qed.

(** The stored data changes only for a caller who has a user document
    and whose [currentPassword] bcrypt accepts against the stored hash. *)
Lemma change_password_writes_only_on_match
    (user : Claims) (body : PasswordBody) (salt : string) (db : Db) :
  snd (changePassword user body salt db) <> db ->
  exists u, findUserById (c_userId user) (db_users db) = Some u /\
            bcrypt_compare (currentPassword body) (User.password u) = true.
Proof.
  unfold put_api_user_password.
  destruct (findUserById _ (db_users db)) as [u|]; simpl; [|now intros []].
  destruct (bcrypt_compare _ (User.password u)) eqn:Hcmp; simpl; [eauto | now intros []].
Qed.

(** [bcrypt.compare] accepts a password against its own hash. *)
Hypothesis bcrypt_compare_hash :
  forall password rounds salt,
    bcrypt_compare password (bcrypt_hash password rounds salt) = true.

(** C5.  Registering an email that no stored user has (under an [_id]
    that no stored user has) answers 201; a login with the same email and
    password on the resulting database then answers 200 for the same
    user, with a token that verification accepts, at any time before its
    expiry, as carrying the registered user's id and email. *)
Theorem register_then_login
    (body : RegisterBody) (fresh : ObjectId) (salt : string)
    (registered loggedIn now : Date) (db : Db) :
  (forall u, In u (db_users db) -> User.email u <> r_email body) ->
  (forall u, In u (db_users db) -> User._id u <> fresh) ->
  (clockTimestamp now < clockTimestamp loggedIn + 24 * 3600)%Z ->
  exists reg db' log claims,
    register body fresh salt registered db = (Json 201 reg, db') /\
    login {| l_email := r_email body; l_password := r_password body |} loggedIn db'
      = (Json 200 log, db') /\
    pu_id (a_user reg) = fresh /\
    pu_id (a_user log) = fresh /\
    pu_email (a_user log) = r_email body /\
    verify (a_token log) secret now = inr claims /\
    c_userId claims = fresh /\
    c_email claims = r_email body.
Proof.
  intros Hemail Hid Hnow.
  set (user := newUser body (bcrypt_hash (r_password body) 10 salt) fresh registered).
  assert (Hfind : findOne (fun u => User.email u =? r_email body)
                    (db_users db ++ [user]) = Some user).
  { rewrite findOne_app, (findByEmail_free _ _ Hemail).
    unfold findOne. simpl. now rewrite String.eqb_refl. }
  eexists _, _, _, _.
  split.
  { unfold post_api_register.
    rewrite (findByEmail_free _ _ Hemail). simpl.
    rewrite (findUserById_free _ _ Hid). reflexivity. }
  split.
  { unfold post_api_login. simpl. fold user. rewrite Hfind. simpl.
    rewrite bcrypt_compare_hash. reflexivity. }
  repeat split.
  - simpl. rewrite jwt_verify_sign.
    change expiresIn_24h with (24 * 3600)%Z.
    destruct (Z.leb_spec (clockTimestamp loggedIn + 24 * 3600) (clockTimestamp now));
      [lia | reflexivity].
  - reflexivity.
  - reflexivity.
Qed.

End ServerFacts.

(** ** Profiles *)

Lemma withUsers_same (db : Db) : withUsers db (db_users db) = db.
Proof. now destruct db. Qed.

Lemma get_profile_missing_user (user : Claims) (db : Db) :
  findUserById (c_userId user) (db_users db) = None ->
  get_api_user user db = (Error 404 "User not found", db).
Proof. intros H. unfold get_api_user. now rewrite H. Qed.

(** With no document for the caller, the profile update finds nothing to
    update and answers 200 with [null]. *)
Lemma update_profile_missing_user (user : Claims) (body : ProfileBody) (db : Db) :
  findUserById (c_userId user) (db_users db) = None ->
  put_api_user user body db = (Json 200 None, db).
Proof.
  intros H. unfold put_api_user, findOneAndUpdate.
  unfold findUserById in H. rewrite H. simpl. now rewrite withUsers_same.
Qed.

(** Neither profile route writes a password or an order count. *)
Lemma profile_routes_keep_password_and_count
    (user : Claims) (body : ProfileBody) (db : Db) :
  snd (get_api_user user db) = db /\
  map User.password (db_users (snd (put_api_user user body db)))
    = map User.password (db_users db) /\
  map User.orders (db_users (snd (put_api_user user body db)))
    = map User.orders (db_users db) /\
  db_orders (snd (put_api_user user body db)) = db_orders db.
Proof.
  split.
  { unfold get_api_user. now destruct (findUserById _ _). }
  unfold put_api_user, findOneAndUpdate.
  destruct (findOne _ (db_users db)); simpl; repeat split; auto;
    now apply updateOne_map.
Qed.

(** ** Instances *)

Lemma aliceOrderDb_unique : uniqueOrderIds aliceOrderDb.
Proof. repeat constructor. intros []. Qed.

(** Alice cancels her own order with a reason at time 1000. *)
Lemma self_cancel_stores_stamped_reason_witness :
  exists o' pre post,
    db_orders aliceOrderDb = pre ++ aliceOrder :: post /\
    fst (put_api_orders_id alice "o1" cancelBody 1000%Z aliceOrderDb) = Json 200 o' /\
    db_orders (snd (put_api_orders_id alice "o1" cancelBody 1000%Z aliceOrderDb))
      = pre ++ o' :: post /\
    db_users (snd (put_api_orders_id alice "o1" cancelBody 1000%Z aliceOrderDb))
      = db_users aliceOrderDb /\
    Order._id o' = "o1" /\
    Order.status o' = Some "Cancelled" /\
    Order.cancellationReason o'
      = cancellationAfter cancelBody 1000%Z (Order.cancellationReason aliceOrder).
Proof.
  apply (self_cancel_stores_stamped_reason alice "o1" cancelBody 1000%Z
           aliceOrderDb aliceOrder).
  - exact aliceOrderDb_unique.
  - left. reflexivity.
  - reflexivity.
  - reflexivity.
  - reflexivity.
Defined.

(** Bob aims the same update at Alice's order. *)
Lemma self_update_foreign_order_not_found_witness :
  put_api_orders_id bob "o1" cancelBody 1000%Z aliceOrderDb
  = (Error 404 "Order not found", aliceOrderDb).
Proof.
  apply (self_update_foreign_order_not_found bob "o1" cancelBody 1000%Z
           aliceOrderDb aliceOrder).
  - exact aliceOrderDb_unique.
  - left. reflexivity.
  - reflexivity.
  - discriminate.
Defined.

Lemma demo_compare_hash (password : string) (rounds : Z) (salt : string) :
  demo_compare password (demo_hash password rounds salt) = true.
Proof. apply String.eqb_refl. Qed.

(** Carol registers at 1.5 s and logs in at 5 s; the login token is still
    good one millisecond before second 86405. *)
Lemma register_then_login_witness :
  exists reg db' log claims,
    post_api_register None demo_hmac demo_hash carolBody "u3" "" 1500%Z aliceOnly
      = (Json 201 reg, db') /\
    post_api_login None demo_hmac demo_compare
      {| l_email := "carol@x.com"; l_password := "secret1" |} 5000%Z db'
      = (Json 200 log, db') /\
    pu_id (a_user reg) = "u3" /\
    pu_id (a_user log) = "u3" /\
    pu_email (a_user log) = "carol@x.com" /\
    jwt_verify demo_hmac (a_token log) (JWT_SECRET None) 86404999%Z = inr claims /\
    c_userId claims = "u3" /\
    c_email claims = "carol@x.com".
Proof.
  apply (register_then_login None demo_hmac demo_hash demo_compare demo_compare_hash
           carolBody "u3" "" 1500%Z 5000%Z 86404999%Z aliceOnly).
  - intros u [<- | []]. discriminate.
  - intros u [<- | []]. discriminate.
  - reflexivity.
Defined.

(** Carol tries to change her password with a wrong current one. *)
Lemma change_password_checks_current_witness :
  put_api_user_password demo_hash demo_compare carol wrongPassword "" carolDb
  = (Error 400 "Current password is incorrect", carolDb).
Proof.
  apply (change_password_checks_current demo_hash demo_compare carol wrongPassword ""
           carolDb carolDoc); reflexivity.
Defined.

(** * Further properties *)

(** ** Orders *)

Lemma findOne_absent_id (i : ObjectId) (p : Order.t -> bool) (docs : list Order.t) :
  (forall d, In d docs -> Order._id d <> i) ->
  (forall d, p d = true -> Order._id d = i) ->
  findOne p docs = None.
Proof.
  intros Habs Hp. unfold findOne.
  destruct (find p docs) as [d|] eqn:Hf; [|reflexivity].
  apply find_some in Hf. destruct Hf as [Hin Hd].
  now elim (Habs d Hin (Hp d Hd)).
Qed.


(** An update to any status other than ["Cancelled"] writes no
    cancellation record on either route, also when its body carries a
    reason: every stored order keeps the record it had, or none. *)
Theorem other_status_keeps_records
    (user : Claims) (i : ObjectId) (body : OrderStatusBody) (now : Date) (db : Db) :
  b_status body <> Some "Cancelled" ->
  map Order.cancellationReason (db_orders (snd (put_api_orders_id user i body now db)))
    = map Order.cancellationReason (db_orders db) /\
  map Order.cancellationReason
      (db_orders (snd (put_api_admin_orders_id user i body now db)))
    = map Order.cancellationReason (db_orders db).
Proof.
  intros Hs.
  assert (Hc : isCancelled (b_status body) = false).
  { destruct (isCancelled (b_status body)) eqn:H; [|reflexivity].
    apply isCancelled_spec in H. now elim Hs. }
  split.
  - unfold put_api_orders_id, findOneAndUpdate.
    destruct (findOne _ (db_orders db)); simpl; [|reflexivity].
    apply updateOne_map. intros d. unfold selfUpdateData. now rewrite Hc.
  - unfold put_api_admin_orders_id, findOneAndUpdate.
    destruct (findOne _ (db_orders db)); simpl; [|reflexivity].
    apply updateOne_map. intros d. unfold adminUpdateData. now rewrite Hc.
Qed.

Lemma serve_created_as (history : list OrderRequest) (r : OrderRequest) (db : Db) :
  (forall o, In o (db_orders db) -> exists c, In c history /\ createdAs c o) ->
  forall o, In o (db_orders (serve r db)) ->
    exists c, In c (history ++ [r]) /\ createdAs c o.
Proof.
  intros IH o.
  assert (Hold : forall x, In x (db_orders db) ->
            exists c, In c (history ++ [r]) /\ createdAs c x).
  { intros x Hx. destruct (IH x Hx) as (c & Hc & Hcr).
    exists c. split; [apply in_or_app; now left | exact Hcr]. }
  assert (Hupd : forall p u, In o (updateOne p (applyUpdate u) (db_orders db)) ->
            exists c, In c (history ++ [r]) /\ createdAs c o).
  { intros p u Hin. apply updateOne_In in Hin.
    destruct Hin as [Hin | (d & Hin & _ & ->)]; [now apply Hold|].
    destruct (Hold d Hin) as (c & Hc & Hcr). exists c. split; [exact Hc|].
    destruct c; simpl in *; auto. }
  destruct r as [user body fresh | user i body now | user i body now]; simpl.
  - unfold post_api_orders.
    destruct (findOrderById _ (db_orders db)); simpl; [apply Hold|].
    unfold findOneAndUpdate.
    match goal with
    | |- context [findOne ?p ?l] => destruct (findOne p l)
    end; simpl;
      (intros Hin; apply in_app_or in Hin; destruct Hin as [Hin | [<- | []]];
       [now apply Hold|];
       exists (PostOrder user body fresh);
       split; [apply in_or_app; right; now left | repeat split]).
  - unfold put_api_orders_id, findOneAndUpdate.
    destruct (findOne _ (db_orders db)); simpl; [apply Hupd | apply Hold].
  - unfold put_api_admin_orders_id, findOneAndUpdate.
    destruct (findOne _ (db_orders db)); simpl; [apply Hupd | apply Hold].
Qed.

(** After any history of order creations and status updates, every stored
    order still has the [_id], owner, [id], [date], [items], [total],
    [paymentMethod] and [address] that one of the creations in the history
    gave it, the owner being that creation's caller. *)
Theorem order_data_as_created (history : list OrderRequest) (o : Order.t) :
  In o (db_orders (serveAll history emptyDb)) ->
  exists user body fresh,
    In (PostOrder user body fresh) history /\
    sameOrderData (newOrder (orderData body user) fresh) o /\
    Order.userId o = Some (c_userId user).
Proof.
  intros Hin.
  assert (H : exists c, In c history /\ createdAs c o).
  { revert o Hin.
    induction history as [|r history IH] using rev_ind; intros o.
    - intros [].
    - rewrite serveAll_snoc. now apply serve_created_as. }
  destruct H as ([user body fresh | |] & Hc & Hcr); simpl in Hcr; try contradiction.
  exists user, body, fresh. repeat split; try apply Hcr; auto.
  destruct Hcr as (_ & <- & _). reflexivity.
Qed.

Lemma filter_owner_update (x : ObjectId) (p : Order.t -> bool) (u : OrderUpdate)
    (docs : list Order.t) :
  List.length (filter (isOwner x) (updateOne p (applyUpdate u) docs))
  = List.length (filter (isOwner x) docs).
Proof.
  induction docs as [|d rest IH]; simpl; [reflexivity|].
  destruct (p d); simpl.
  - change (isOwner x (applyUpdate u d)) with (isOwner x d).
    now destruct (isOwner x d).
  - destruct (isOwner x d); simpl; now rewrite IH.
Qed.

Lemma ordersOwnedBy_update (x : ObjectId) (p : Order.t -> bool) (u : OrderUpdate)
    (db : Db) :
  ordersOwnedBy x (withOrders db (updateOne p (applyUpdate u) (db_orders db)))
  = ordersOwnedBy x db.
Proof.
  unfold ordersOwnedBy. simpl. now rewrite filter_owner_update.
Qed.

Lemma ordersOwnedBy_add (x : ObjectId) (docs : list Order.t) (o : Order.t) :
  Z.of_nat (List.length (filter (isOwner x) (docs ++ [o])))
  = (Z.of_nat (List.length (filter (isOwner x) docs))
     + if isOwner x o then 1 else 0)%Z.
Proof.
  rewrite filter_app, length_app. simpl.
  destruct (isOwner x o); simpl; lia.
Qed.

Lemma NoDup_ids_split (pre post : list User.t) (u v : User.t) :
  NoDup (map User._id (pre ++ u :: post)) ->
  In v (pre ++ post) -> User._id v <> User._id u.
Proof.
  rewrite map_app. simpl. intros Hnd Hin Heq.
  apply NoDup_remove_2 in Hnd. apply Hnd.
  rewrite <- map_app, <- Heq. now apply in_map.
Qed.

Lemma post_api_orders_counts (user : Claims) (body : OrderBody) (fresh : ObjectId)
    (db : Db) :
  uniqueUserIds db -> orderCountsMatch db ->
  orderCountsMatch (snd (post_api_orders user body fresh db)).
Proof.
  intros Hnd Hcount. unfold post_api_orders.
  destruct (findOrderById _ (db_orders db)); simpl; [exact Hcount|].
  set (o := newOrder (orderData body user) fresh).
  assert (Ho : forall x, isOwner x o = (c_userId user =? x)) by reflexivity.
  unfold findOneAndUpdate. simpl.
  destruct (findOne _ (db_users db)) as [u0|] eqn:Hfind; simpl.
  - destruct (updateOne_hit _ incOrders _ _ Hfind)
      as (pre & post & Hsplit & Hupd & Hid & _).
    apply String.eqb_eq in Hid.
    unfold uniqueUserIds in Hnd. rewrite Hsplit in Hnd.
    intros v Hv. unfold ordersOwnedBy. simpl in *.
    rewrite Hupd in Hv. rewrite ordersOwnedBy_add, Ho.
    apply in_app_or in Hv. destruct Hv as [Hv | [<- | Hv]].
    + assert (Hne := NoDup_ids_split pre post u0 v Hnd (in_or_app _ _ _ (or_introl Hv))).
      rewrite Hid in Hne.
      destruct (String.eqb_spec (c_userId user) (User._id v)); [now elim Hne|].
      rewrite Z.add_0_r. apply Hcount. rewrite Hsplit. apply in_or_app. now left.
    + simpl. rewrite Hid, String.eqb_refl.
      rewrite (Hcount u0); [unfold ordersOwnedBy; now rewrite Hid|].
      rewrite Hsplit. apply in_or_app. right. now left.
    + assert (Hne := NoDup_ids_split pre post u0 v Hnd (in_or_app _ _ _ (or_intror Hv))).
      rewrite Hid in Hne.
      destruct (String.eqb_spec (c_userId user) (User._id v)); [now elim Hne|].
      rewrite Z.add_0_r. apply Hcount. rewrite Hsplit. apply in_or_app. right. now right.
  - intros v Hv. unfold ordersOwnedBy. simpl in *.
    rewrite ordersOwnedBy_add, Ho.
    pose proof (findOne_none _ _ Hfind v Hv) as Hne. simpl in Hne.
    rewrite String.eqb_sym, Hne, Z.add_0_r. now apply Hcount.
Qed.

Lemma serve_users_key {B : Type} (key : User.t -> B) (r : OrderRequest) (db : Db) :
  (forall u, key (incOrders u) = key u) ->
  map key (db_users (serve r db)) = map key (db_users db).
Proof.
  intros Hkey.
  destruct r as [user body fresh | user i body now | user i body now]; simpl.
  - unfold post_api_orders.
    destruct (findOrderById _ (db_orders db)); simpl; [reflexivity|].
    unfold findOneAndUpdate. simpl.
    destruct (findOne _ (db_users db)); simpl; [|reflexivity].
    now apply updateOne_map.
  - unfold put_api_orders_id, findOneAndUpdate.
    now destruct (findOne _ (db_orders db)).
  - unfold put_api_admin_orders_id, findOneAndUpdate.
    now destruct (findOne _ (db_orders db)).
Qed.

Lemma serve_counts (r : OrderRequest) (db : Db) :
  uniqueUserIds db -> orderCountsMatch db -> orderCountsMatch (serve r db).
Proof.
  intros Hnd Hcount.
  destruct r as [user body fresh | user i body now | user i body now]; simpl.
  - now apply post_api_orders_counts.
  - unfold put_api_orders_id, findOneAndUpdate.
    destruct (findOne _ (db_orders db)); simpl; [|exact Hcount].
    intros v Hv. rewrite ordersOwnedBy_update. now apply Hcount.
  - unfold put_api_admin_orders_id, findOneAndUpdate.
    destruct (findOne _ (db_orders db)); simpl; [|exact Hcount].
    intros v Hv. rewrite ordersOwnedBy_update. now apply Hcount.
Qed.

(** The denormalised count stays in step: from a database with distinct
    user ids in which every user's [orders] is the number of stored
    orders of that user, any history of order creations and status updates,
    rejected ones included, leads to a database of which the same is
    true. *)
Theorem order_counts_stay_in_step (history : list OrderRequest) (db : Db) :
  uniqueUserIds db ->
  orderCountsMatch db ->
  uniqueUserIds (serveAll history db) /\ orderCountsMatch (serveAll history db).
Proof.
  intros Hnd Hcount.
  induction history as [|r history IH] using rev_ind; [now split|].
  rewrite serveAll_snoc. destruct IH as [IHnd IHcount]. split.
  - unfold uniqueUserIds. now rewrite serve_users_key.
  - now apply serve_counts.
Qed.

(** Once a cancellation record is on an order, no further history of
    creations and status updates removes it: the order with that [_id]
    still carries a record afterwards. *)
Theorem records_are_never_cleared
    (more : list OrderRequest) (db : Db) (o : Order.t) :
  In o (db_orders db) ->
  Order.cancellationReason o <> None ->
  exists o', In o' (db_orders (serveAll more db)) /\
             Order._id o' = Order._id o /\
             Order.cancellationReason o' <> None.
Proof.
  intros Hin Hrec.
  induction more as [|r more IH] using rev_ind; [exists o; auto|].
  rewrite serveAll_snoc.
  destruct IH as (o1 & Hin1 & Hid1 & Hrec1).
  destruct (serve_keeps_record r _ o1 Hin1 Hrec1) as (o2 & Hin2 & Hid2 & Hrec2).
  exists o2. repeat split; auto. congruence.
Qed.

(** A created order shows up in its owner's listing and changes nobody
    else's. *)
Theorem created_order_is_listed
    (user other : Claims) (body : OrderBody) (fresh : ObjectId)
    (db db' : Db) (o : Order.t) :
  post_api_orders user body fresh db = (Json 201 o, db') ->
  c_userId other <> c_userId user ->
  (exists listed, get_api_orders user db' = (Json 200 listed, db') /\ In o listed) /\
  fst (get_api_orders other db') = fst (get_api_orders other db).
Proof.
  unfold post_api_orders.
  destruct (findOrderById _ (db_orders db)); [discriminate|].
  unfold findOneAndUpdate. simpl.
  destruct (findOne _ (db_users db)); simpl; intros [= <- <-] Hne; simpl.
  all: split;
    [ eexists; split; [reflexivity|];
      apply (Permutation_in _ (Permutation_sym (sortByDateDesc_perm _)));
      apply filter_In; split; [apply in_or_app; right; now left|];
      unfold isOwner; simpl; apply String.eqb_refl
    | unfold get_api_orders; simpl; rewrite filter_app; simpl;
      unfold isOwner at 2; simpl;
      destruct (String.eqb_spec (c_userId user) (c_userId other)) as [E|_];
      [now elim Hne | now rewrite app_nil_r] ].
Qed.

(** The admin listing gives every stored order, whoever owns it and
    whoever asks, newest date first, and changes nothing. *)
Theorem admin_orders_lists_all (user : Claims) (db : Db) :
  exists listed,
    get_api_admin_orders user db = (Json 200 listed, db) /\
    Permutation listed (db_orders db) /\
    StronglySorted notOlder listed /\
    (forall owner mine,
       get_api_orders owner db = (Json 200 mine, db) ->
       forall o, In o mine -> In o listed).
Proof.
  exists (sortByDateDesc (db_orders db)).
  split; [reflexivity|].
  split; [apply sortByDateDesc_perm|].
  split; [apply sortByDateDesc_sorted|].
  intros owner mine [= <-] o Ho.
  apply (Permutation_in _ (sortByDateDesc_perm _)) in Ho.
  apply filter_In in Ho.
  apply (Permutation_in _ (Permutation_sym (sortByDateDesc_perm _))). tauto.
Qed.

(** ** The authorization header *)

Lemma split_space_cons (s : string) : exists w ws, split_space s = w :: ws.
Proof.
  induction s as [|c s (w & ws & IH)]; simpl; [eauto|].
  destruct (Ascii.eqb c " "); [eauto|]. rewrite IH. eauto.
Qed.

Lemma concat_two (sep x y : string) (l : list string) :
  String.concat sep (x :: y :: l) = (x ++ sep ++ String.concat sep (y :: l))%string.
Proof. reflexivity. Qed.

(** [split(' ')] loses nothing: its words have no space in them, and
    joined again by single spaces they are the header. *)
Theorem split_space_join (s : string) :
  String.concat " " (split_space s) = s /\
  Forall (fun w => hasSpace w = false) (split_space s).
Proof.
  induction s as [|c s [IHjoin IHwords]]; simpl.
  - split; [reflexivity | repeat constructor].
  - destruct (split_space_cons s) as (w & ws & Hs).
    rewrite Hs in *.
    destruct (Ascii.eqb_spec c " "%char) as [-> | Hc].
    + split; [|constructor; [reflexivity | exact IHwords]].
      rewrite concat_two, IHjoin. reflexivity.
    + apply Forall_cons_iff in IHwords as [Hw Hws]. split.
      * destruct ws as [|y l]; [simpl in *; now rewrite IHjoin|].
        rewrite concat_two. rewrite concat_two in IHjoin.
        rewrite <- IHjoin. reflexivity.
      * constructor; [|exact Hws].
        simpl. rewrite Hw.
        destruct (Ascii.eqb_spec c " "%char); [contradiction | reflexivity].
Qed.

Lemma split_space_word (w : string) :
  hasSpace w = false -> split_space w = [w].
Proof.
  induction w as [|c w IH]; simpl; [reflexivity|].
  destruct (Ascii.eqb c " "); simpl; [discriminate|].
  intros H. now rewrite (IH H).
Qed.

Lemma split_space_first (w rest : string) :
  hasSpace w = false ->
  split_space (w ++ " " ++ rest)%string = w :: split_space rest.
Proof.
  induction w as [|c w IH]; simpl; [reflexivity|].
  destruct (Ascii.eqb c " "); simpl; [discriminate|].
  intros H. specialize (IH H). simpl in IH. now rewrite IH.
Qed.

(** The middleware takes the second word of the header as the token,
    whatever the first word is: the scheme is not compared with [Bearer],
    and may even be empty. *)
Theorem bearer_scheme_is_not_checked (scheme token : string) :
  hasSpace scheme = false ->
  hasSpace token = false ->
  token <> "" ->
  bearerToken (Some (scheme ++ " " ++ token)%string) = Some token.
Proof.
  intros Hs Ht Hne. unfold bearerToken.
  destruct (String.eqb_spec (scheme ++ " " ++ token)%string "") as [E|_].
  { destruct scheme; discriminate E. }
  rewrite (split_space_first _ _ Hs), (split_space_word _ Ht). simpl.
  destruct (String.eqb_spec token ""); [contradiction | reflexivity].
Qed.

(** A header of one word, or none, is answered 401 before any token is
    read. *)
Lemma bearer_needs_two_words (word : string) :
  hasSpace word = false -> bearerToken (Some word) = None.
Proof.
  intros H. unfold bearerToken.
  destruct (word =? ""); [reflexivity|].
  now rewrite (split_space_word _ H).
Qed.

Section RouteFacts.
Variable env_JWT_SECRET : option string.
Variable hmacSHA256 : string -> Claims -> string.
Variable parseToken : string -> option Token.
Variable bcrypt_hash : string -> Z -> string -> string.
Variable bcrypt_compare : string -> string -> bool.

Local Abbreviation secret := (JWT_SECRET env_JWT_SECRET).
Local Abbreviation sign := (jwt_sign hmacSHA256).
Local Abbreviation verify := (jwt_verify hmacSHA256).
Local Abbreviation gate := (authenticateToken env_JWT_SECRET hmacSHA256 parseToken).
Local Abbreviation register := (post_api_register env_JWT_SECRET hmacSHA256 bcrypt_hash).
Local Abbreviation login := (post_api_login env_JWT_SECRET hmacSHA256 bcrypt_compare).
Local Abbreviation changePassword := (put_api_user_password bcrypt_hash bcrypt_compare).

(** The middleware calls [next()] exactly for a header whose second word
    reads as a token that carries the server's signature of its payload
    and has not expired, and then [req.user] is that payload; every other
    request is answered 401 (no second word) or 403. *)
Theorem gate_lets_through_exactly (authorization : option string) (now : Date) :
  (forall user,
     gate authorization now = Next user <->
     exists text token,
       bearerToken authorization = Some text /\
       parseToken text = Some token /\
       t_signature token = hmacSHA256 secret (t_payload token) /\
       (clockTimestamp now < c_exp (t_payload token))%Z /\
       user = t_payload token) /\
  (forall code error,
     gate authorization now = Reply code error ->
     (code = 401%Z /\ bearerToken authorization = None) \/
     (code = 403%Z /\ bearerToken authorization <> None)).
Proof.
  unfold authenticateToken, jwt_verify.
  destruct (bearerToken authorization) as [text|].
  2:{ split.
      - intros user. split; [discriminate | intros (? & ? & H & _); discriminate H].
      - intros code error [= <- _]. left. now split. }
  destruct (parseToken text) as [token|] eqn:Hparse.
  2:{ split.
      - intros user. split; [discriminate|].
        intros (? & ? & [= <-] & H & _). congruence.
      - intros code error [= <- _]. right. now split. }
  destruct (String.eqb_spec (t_signature token) (hmacSHA256 secret (t_payload token)))
    as [Hsig | Hsig]; simpl.
  2:{ split.
      - intros user. split; [discriminate|].
        intros (? & ? & [= <-] & H1 & H & _).
        rewrite Hparse in H1. injection H1 as <-. contradiction.
      - intros code error [= <- _]. right. now split. }
  destruct (Z.leb_spec (c_exp (t_payload token)) (clockTimestamp now)) as [Hexp | Hexp].
  - split.
    + intros user. split; [discriminate|].
      intros (? & ? & [= <-] & H1 & _ & H & _).
      rewrite Hparse in H1. injection H1 as <-. lia.
    + intros code error [= <- _]. right. now split.
  - split; [|discriminate].
    intros user. split.
    + intros [= <-]. exists text, token. auto.
    + intros (? & ? & [= <-] & H1 & _ & _ & ->).
      rewrite Hparse in H1. now injection H1 as <-.
Qed.

(** With [JWT_SECRET] unset, or set to the empty string, the server signs
    and verifies with the constant ['your-secret-key']: a token made with
    that constant by anybody, for any user id, verifies. *)
Theorem unset_secret_falls_back
    (userId : ObjectId) (email : string) (issued now : Date) :
  env_JWT_SECRET = None \/ env_JWT_SECRET = Some "" ->
  (clockTimestamp now < clockTimestamp issued + 24 * 3600)%Z ->
  verify (sign userId email "your-secret-key" expiresIn_24h issued) secret now
  = inr {| c_userId := userId; c_email := email;
           c_iat := clockTimestamp issued;
           c_exp := (clockTimestamp issued + 24 * 3600)%Z |}.
Proof.
  intros Henv Hnow.
  assert (Hkey : secret = "your-secret-key").
  { unfold JWT_SECRET. now destruct Henv as [-> | ->]. }
  rewrite Hkey, jwt_verify_sign.
  change expiresIn_24h with (24 * 3600)%Z.
  destruct (Z.leb_spec (clockTimestamp issued + 24 * 3600) (clockTimestamp now));
    [lia | reflexivity].
Qed.

(** From its expiry on, a token the server issued opens no protected
    route: the answer is 403 and the handler is not run, so the store is
    as before. *)
Theorem expired_token_is_turned_away
    {A S : Type} (header text : string) (userId : ObjectId) (email : string)
    (issued now : Date) (handler : Claims -> S -> Response A * S) (store : S) :
  bearerToken (Some header) = Some text ->
  parseToken text = Some (sign userId email secret expiresIn_24h issued) ->
  (clockTimestamp issued + 24 * 3600 <= clockTimestamp now)%Z ->
  protected env_JWT_SECRET hmacSHA256 parseToken (Some header) now handler store
  = (Error 403 "Invalid or expired token", store).
Proof.
  intros Hb Hp Hexp. unfold protected.
  rewrite (authenticateToken_verify _ _ _ _ _ _ _ Hb Hp), jwt_verify_sign.
  change expiresIn_24h with (24 * 3600)%Z.
  destruct (Z.leb_spec (clockTimestamp issued + 24 * 3600) (clockTimestamp now));
    [reflexivity | lia].
Qed.

(** A request without an authorization header never reaches the handler
    of a protected route. *)
Lemma protected_needs_header
    {A S : Type} (now : Date) (handler : Claims -> S -> Response A * S) (store : S) :
  protected env_JWT_SECRET hmacSHA256 parseToken None now handler store
  = (Error 401 "Access token required", store).
Proof. reflexivity. Qed.
End RouteFacts.

(** ** Accounts *)

Lemma findOne_after_update {A : Type} (p q : A -> bool) (f : A -> A)
    (docs : list A) (u : A) :
  findOne p docs = Some u ->
  findOne q docs = Some u ->
  q (f u) = true ->
  findOne q (updateOne p f docs) = Some (f u).
Proof.
  unfold findOne. intros Hp Hq Hf.
  induction docs as [|d rest IH]; simpl in *; [discriminate|].
  destruct (p d) eqn:Hpd.
  - injection Hp as ->. simpl. now rewrite Hf.
  - destruct (q d) eqn:Hqd.
    + injection Hq as ->.
      apply find_some in Hp. destruct Hp as [_ Hp]. congruence.
    + simpl. rewrite Hqd. now apply IH.
Qed.

Lemma NoDup_snoc {A : Type} (l : list A) (x : A) :
  NoDup l -> ~ In x l -> NoDup (l ++ [x]).
Proof.
  intros Hnd Hin.
  apply NoDup_rev in Hnd. rewrite <- rev_involutive.
  apply NoDup_rev. rewrite rev_app_distr. simpl.
  constructor; [now rewrite <- in_rev | exact Hnd].
Qed.

Lemma findOne_key_none {A : Type} (key : A -> string) (k : string) (docs : list A) :
  findOne (fun d => key d =? k) docs = None -> ~ In k (map key docs).
Proof.
  intros Hfind Hin. apply in_map_iff in Hin. destruct Hin as (d & Hk & Hin).
  pose proof (findOne_none _ _ Hfind d Hin) as Hne. simpl in Hne.
  apply String.eqb_neq in Hne. contradiction.
Qed.

(** The profile update rewrites the caller's document and no other, and
    cannot reach that document's [_id], email, password, order count or
    creation time, whatever the body holds. *)
Theorem profile_update_is_confined
    (user : Claims) (body : ProfileBody) (db : Db) (u : User.t) :
  findUserById (c_userId user) (db_users db) = Some u ->
  exists u' pre post,
    db_users db = pre ++ u :: post /\
    put_api_user user body db
      = (Json 200 (Some (selectWithoutPassword u')), withUsers db (pre ++ u' :: post)) /\
    User._id u' = User._id u /\
    User.email u' = User.email u /\
    User.password u' = User.password u /\
    User.orders u' = User.orders u /\
    User.createdAt u' = User.createdAt u.
Proof.
  intros Hu.
  destruct (updateOne_hit _ (applyProfile body) _ _ Hu)
    as (pre & post & Hsplit & Hupd & _ & _).
  exists (applyProfile body u), pre, post.
  split; [exact Hsplit|]. split; [|repeat split].
  unfold put_api_user, findOneAndUpdate.
  unfold findUserById in Hu. now rewrite Hu, Hupd.
Qed.

Section AccountFacts.
Variable env_JWT_SECRET : option string.
Variable hmacSHA256 : string -> Claims -> string.
Variable bcrypt_hash : string -> Z -> string -> string.
Variable bcrypt_compare : string -> string -> bool.

Local Abbreviation register := (post_api_register env_JWT_SECRET hmacSHA256 bcrypt_hash).
Local Abbreviation login := (post_api_login env_JWT_SECRET hmacSHA256 bcrypt_compare).
Local Abbreviation changePassword := (put_api_user_password bcrypt_hash bcrypt_compare).
Local Abbreviation route :=
  (handle env_JWT_SECRET hmacSHA256 bcrypt_hash bcrypt_compare).
Local Abbreviation routes :=
  (handleAll env_JWT_SECRET hmacSHA256 bcrypt_hash bcrypt_compare).

(** What a registration does to the database, when it does anything. *)
Lemma register_effect (body : RegisterBody) (fresh : ObjectId) (salt : string)
    (now : Date) (db : Db) :
  snd (register body fresh salt now db) = db \/
  (findOne (fun u => User.email u =? r_email body) (db_users db) = None /\
   findUserById fresh (db_users db) = None /\
   snd (register body fresh salt now db)
   = withUsers db
       (db_users db ++ [newUser body (bcrypt_hash (r_password body) 10 salt) fresh now])).
Proof.
  unfold post_api_register.
  destruct (findOne _ (db_users db)) eqn:He; [now left|].
  simpl. destruct (findUserById fresh (db_users db)) eqn:Hi; [now left|].
  right. auto.
Qed.

(** Registering an email a second time, after a registration that
    succeeded and with whatever else in the body, answers 400 and changes
    nothing: the first user stays as stored. *)
Theorem register_twice_conflict
    (body body' : RegisterBody) (fresh fresh' : ObjectId) (salt salt' : string)
    (now now' : Date) (db db' : Db) (reg : AuthBody) :
  register body fresh salt now db = (Json 201 reg, db') ->
  r_email body' = r_email body ->
  register body' fresh' salt' now' db'
  = (Error 400 "User already exists with this email", db').
Proof.
  intros Hreg Hemail.
  unfold post_api_register in Hreg.
  destruct (findOne _ (db_users db)) eqn:He; [discriminate|].
  simpl in Hreg. destruct (findUserById fresh (db_users db)); [discriminate|].
  injection Hreg as _ <-.
  unfold post_api_register. simpl.
  rewrite findOne_app, Hemail, He. unfold findOne. simpl.
  now rewrite String.eqb_refl.
Qed.

Lemma login_reads_only (body : LoginBody) (now : Date) (db : Db) :
  snd (login body now db) = db.
Proof.
  unfold post_api_login.
  destruct (findOne _ (db_users db)) as [u|]; [|reflexivity].
  now destruct (bcrypt_compare _ (User.password u)).
Qed.

(** A login never writes, and it fails in one way only: the same 400 for
    an unknown email and for a wrong password.  It succeeds exactly for the
    first stored user with that email, when bcrypt accepts the password
    against that user's hash. *)
Theorem login_outcomes (body : LoginBody) (now : Date) (db : Db) :
  snd (login body now db) = db /\
  (fst (login body now db) = Error 400 "Invalid email or password" \/
   exists u a,
     findOne (fun u => User.email u =? l_email body) (db_users db) = Some u /\
     bcrypt_compare (l_password body) (User.password u) = true /\
     fst (login body now db) = Json 200 a /\
     pu_id (a_user a) = User._id u /\
     pu_email (a_user a) = l_email body).
Proof.
  unfold post_api_login.
  destruct (findOne _ (db_users db)) as [u|] eqn:Hfind; [|split; auto].
  destruct (bcrypt_compare _ (User.password u)) eqn:Hcmp; simpl; [|split; auto].
  split; [reflexivity|]. right. eexists u, _.
  repeat split; auto. simpl.
  apply findOne_In in Hfind. destruct Hfind as [_ He]. now apply String.eqb_eq.
Qed.

(** No account is reachable by email alone: for an email that no stored
    user has, every password gets the 400 of a failed login. *)
Lemma login_unknown_email (body : LoginBody) (now : Date) (db : Db) :
  (forall u, In u (db_users db) -> User.email u <> l_email body) ->
  login body now db = (Error 400 "Invalid email or password", db).
Proof.
  intros H. unfold post_api_login. now rewrite (findByEmail_free _ _ H).
Qed.

Lemma handle_users_key {B : Type} (key : User.t -> B) (r : Request) (db : Db) :
  (forall u, key (incOrders u) = key u) ->
  (forall b u, key (applyProfile b u) = key u) ->
  (forall h u, key (setPassword h u) = key u) ->
  map key (db_users (route r db)) = map key (db_users db) \/
  exists body fresh salt now,
    r = Register body fresh salt now /\
    findOne (fun u => User.email u =? r_email body) (db_users db) = None /\
    findUserById fresh (db_users db) = None /\
    db_users (route r db)
    = db_users db ++ [newUser body (bcrypt_hash (r_password body) 10 salt) fresh now].
Proof.
  intros Hinc Hprof Hpass.
  destruct r as [body fresh salt now | body now | user | user body | user body salt
                 | user | user | user | r]; simpl.
  - destruct (register_effect body fresh salt now db) as [-> | (He & Hi & ->)];
      [now left|].
    right. exists body, fresh, salt, now. auto.
  - left. now rewrite login_reads_only.
  - left. unfold get_api_user. now destruct (findUserById _ _).
  - left. unfold put_api_user, findOneAndUpdate.
    destruct (findOne _ (db_users db)); simpl; [|reflexivity].
    now apply updateOne_map.
  - left. unfold put_api_user_password.
    destruct (findUserById _ _); [|reflexivity].
    destruct (bcrypt_compare _ _); simpl; [|reflexivity].
    now apply updateOne_map.
  - now left.
  - now left.
  - now left.
  - left. now apply serve_users_key.
Qed.

Lemma handle_orders (r : Request) (db : Db) :
  db_orders (route r db) = db_orders db \/
  exists o, r = Orders o /\ route r db = serve o db.
Proof.
  destruct r as [body fresh salt now | body now | user | user body | user body salt
                 | user | user | user | r]; simpl.
  - left. now destruct (register_effect body fresh salt now db) as [-> | (_ & _ & ->)].
  - left. now rewrite login_reads_only.
  - left. unfold get_api_user. now destruct (findUserById _ _).
  - left. unfold put_api_user, findOneAndUpdate.
    now destruct (findOne _ (db_users db)).
  - left. unfold put_api_user_password.
    destruct (findUserById _ _); [|reflexivity].
    now destruct (bcrypt_compare _ _).
  - now left.
  - now left.
  - now left.
  - right. eauto.
Qed.

Lemma handleAll_snoc (history : list Request) (r : Request) (db : Db) :
  routes (history ++ [r]) db = route r (routes history db).
Proof. unfold handleAll. now rewrite fold_left_app. Qed.

(** The three indexes hold along every history of requests from the empty
    database: no two stored users share an [_id] or an email, and no two
    stored orders share an [_id]. *)
Theorem indexes_hold (history : list Request) :
  uniqueUserIds (routes history emptyDb) /\
  uniqueEmails (routes history emptyDb) /\
  uniqueOrderIds (routes history emptyDb).
Proof.
  induction history as [|r history (IHid & IHemail & IHorder)] using rev_ind.
  - repeat split; constructor.
  - rewrite handleAll_snoc.
    set (db := routes history emptyDb) in *.
    split; [|split].
    + unfold uniqueUserIds.
      destruct (handle_users_key User._id r db) as [-> | (b & f & s & n & _ & _ & Hi & ->)];
        auto.
      rewrite map_app. apply NoDup_snoc; [exact IHid|].
      now apply findOne_key_none.
    + unfold uniqueEmails.
      destruct (handle_users_key User.email r db) as [-> | (b & f & s & n & _ & He & _ & ->)];
        auto.
      rewrite map_app. apply NoDup_snoc; [exact IHemail|].
      now apply findOne_key_none.
    + destruct (handle_orders r db) as [H | (o & _ & ->)].
      * unfold uniqueOrderIds. now rewrite H.
      * now apply serve_uniqueOrderIds.
Qed.

(** [bcrypt.compare] accepts a password against its own hash. *)
Hypothesis bcrypt_compare_hash :
  forall password rounds salt,
    bcrypt_compare password (bcrypt_hash password rounds salt) = true.

(** After a password change that went through, a login with the user's
    email and the new password succeeds for that user. *)
Theorem new_password_logs_in
    (user : Claims) (body : PasswordBody) (salt : string) (now : Date)
    (db db' : Db) (u : User.t) :
  findUserById (c_userId user) (db_users db) = Some u ->
  findOne (fun d => User.email d =? User.email u) (db_users db) = Some u ->
  changePassword user body salt db = (Json 200 "Password updated successfully", db') ->
  exists a,
    login {| l_email := User.email u; l_password := newPassword body |} now db'
      = (Json 200 a, db') /\
    pu_id (a_user a) = User._id u.
Proof.
  intros Hid Hemail Hchange.
  unfold put_api_user_password in Hchange. rewrite Hid in Hchange.
  destruct (bcrypt_compare (currentPassword body) (User.password u));
    simpl in Hchange; [|discriminate].
  injection Hchange as <-.
  set (hashed := bcrypt_hash (newPassword body) 10 salt).
  assert (Hfind : findOne (fun d => User.email d =? User.email u)
                    (updateOne (fun d => User._id d =? User._id u)
                       (setPassword hashed) (db_users db))
                  = Some (setPassword hashed u)).
  { apply findOne_after_update; auto.
    - pose proof (findOne_In _ _ _ Hid) as [_ H]. apply String.eqb_eq in H.
      unfold findUserById in Hid. now rewrite H.
    - simpl. apply String.eqb_refl. }
  unfold post_api_login. simpl. rewrite Hfind. simpl.
  unfold hashed. rewrite bcrypt_compare_hash. simpl.
  eexists. split; reflexivity.
Qed.
End AccountFacts.

(** ** Collections keyed by [_id] *)

Section KeyedFacts.
Context {A : Type}.
Variable key : A -> ObjectId.

Lemma findById_absent (i : ObjectId) (docs : list A) :
  findById key i docs = None <-> ~ In i (map key docs).
Proof.
  unfold findById. split.
  - apply findOne_key_none.
  - intros Hnot. unfold findOne.
    destruct (find _ docs) as [d|] eqn:Hf; [|reflexivity].
    apply find_some in Hf. destruct Hf as [Hin Hk]. apply String.eqb_eq in Hk.
    elim Hnot. rewrite <- Hk. now apply in_map.
Qed.

Lemma findById_key (i : ObjectId) (docs : list A) (d : A) :
  findById key i docs = Some d -> In d docs /\ key d = i.
Proof.
  intros H. apply findOne_In in H. destruct H as [Hin Hk].
  split; [exact Hin | now apply String.eqb_eq].
Qed.

Lemma findById_In (docs : list A) (d : A) :
  NoDup (map key docs) -> In d docs -> findById key (key d) docs = Some d.
Proof.
  unfold findById, findOne. intros Hnd Hin.
  induction docs as [|x rest IH]; simpl in *; [contradiction|].
  inversion Hnd as [|? ? Hnotin Hrest]; subst.
  destruct Hin as [-> | Hin]; [now rewrite String.eqb_refl|].
  destruct (String.eqb_spec (key x) (key d)) as [E|_]; [|now apply IH].
  elim Hnotin. rewrite E. now apply in_map.
Qed.

(** Saving under a free [_id] appends; the document is then found under
    its [_id] and every other lookup is as before. *)
Lemma save_then_find (d : A) (docs : list A) :
  findById key (key d) docs = None ->
  save key d docs = Some (docs ++ [d]) /\
  findById key (key d) (docs ++ [d]) = Some d /\
  (forall j, j <> key d -> findById key j (docs ++ [d]) = findById key j docs).
Proof.
  intros Hfree. unfold save. rewrite Hfree. split; [reflexivity|].
  unfold findById in *. split.
  - rewrite findOne_app, Hfree. unfold findOne. simpl. now rewrite String.eqb_refl.
  - intros j Hj. rewrite findOne_app.
    destruct (findOne (fun x => key x =? j) docs); [reflexivity|].
    unfold findOne. simpl.
    destruct (String.eqb_spec (key d) j); [congruence | reflexivity].
Qed.

Lemma save_keeps_NoDup (d : A) (docs docs' : list A) :
  NoDup (map key docs) -> save key d docs = Some docs' -> NoDup (map key docs').
Proof.
  unfold save. intros Hnd.
  destruct (findById key (key d) docs) eqn:Hf; [discriminate|].
  intros [= <-]. rewrite map_app. apply NoDup_snoc; [exact Hnd|].
  now apply findById_absent.
Qed.

Lemma deleteOne_miss (i : ObjectId) (docs : list A) :
  ~ In i (map key docs) -> deleteOne key i docs = docs.
Proof.
  induction docs as [|d rest IH]; simpl; [reflexivity|].
  intros Hnot. destruct (String.eqb_spec (key d) i) as [E|_]; [tauto|].
  rewrite IH; tauto.
Qed.

(** Deleting takes out the first document with the [_id] and nothing
    else. *)
Lemma deleteOne_hit (i : ObjectId) (docs : list A) (d : A) :
  findById key i docs = Some d ->
  exists pre post,
    docs = pre ++ d :: post /\
    deleteOne key i docs = pre ++ post /\
    ~ In i (map key pre).
Proof.
  unfold findById, findOne.
  induction docs as [|x rest IH]; simpl; [discriminate|].
  destruct (String.eqb_spec (key x) i) as [E|E].
  - intros [= ->]. exists [], rest. repeat split; auto.
  - intros H. destruct (IH H) as (pre & post & -> & -> & Hpre).
    exists (x :: pre), post. repeat split; auto.
    simpl. intros [Hx | Hx]; [contradiction | now apply Hpre].
Qed.

Lemma deleteOne_keeps_NoDup (i : ObjectId) (docs : list A) :
  NoDup (map key docs) -> NoDup (map key (deleteOne key i docs)).
Proof.
  induction docs as [|d rest IH]; simpl; [auto|].
  intros Hnd. inversion Hnd as [|? ? Hnotin Hrest]; subst.
  destruct (key d =? i); [exact Hrest|].
  simpl. constructor; [|now apply IH].
  intros Hin. apply Hnotin.
  clear - Hin. induction rest as [|x rest IH]; simpl in *; [contradiction|].
  destruct (key x =? i); [now right|].
  destruct Hin as [-> | Hin]; [now left | right; now apply IH].
Qed.

(** With distinct [_id]s, a deleted [_id] is gone and every other lookup is
    as before. *)
Lemma delete_then_find (i : ObjectId) (docs : list A) :
  NoDup (map key docs) ->
  findById key i (deleteOne key i docs) = None /\
  (forall j, j <> i -> findById key j (deleteOne key i docs) = findById key j docs).
Proof.
  intros Hnd. split.
  - apply findById_absent.
    induction docs as [|d rest IH]; simpl; [tauto|].
    inversion Hnd as [|? ? Hnotin Hrest]; subst.
    destruct (String.eqb_spec (key d) i) as [<-|E]; [exact Hnotin|].
    simpl. intros [Hd | Hin]; [contradiction | now apply IH].
  - intros j Hj. unfold findById, findOne.
    induction docs as [|d rest IH]; simpl; [reflexivity|].
    inversion Hnd as [|? ? Hnotin Hrest]; subst.
    destruct (String.eqb_spec (key d) i) as [E|E]; simpl.
    + destruct (String.eqb_spec (key d) j); [congruence | reflexivity].
    + destruct (key d =? j); [reflexivity | now apply IH].
Qed.

Lemma insertMany_keeps_NoDup (new docs : list A) :
  NoDup (map key docs) -> NoDup (map key (snd (insertMany key new docs))).
Proof.
  revert docs. induction new as [|d new IH]; intros docs Hnd; simpl; [exact Hnd|].
  destruct (save key d docs) as [docs'|] eqn:Hs; [|exact Hnd].
  apply IH. now apply (save_keeps_NoDup d docs).
Qed.

(** [insertMany] of documents with [_id]s distinct from each other and
    from the stored ones appends them all, in order. *)
Lemma insertMany_fresh (new docs : list A) :
  NoDup (map key (docs ++ new)) ->
  insertMany key new docs = (true, docs ++ new).
Proof.
  revert docs. induction new as [|d new IH]; intros docs Hnd; simpl.
  - now rewrite app_nil_r.
  - assert (Hfree : findById key (key d) docs = None).
    { apply findById_absent. intros Hin.
      rewrite map_app in Hnd. simpl in Hnd.
      apply NoDup_remove_2 in Hnd. apply Hnd, in_or_app. now left. }
    unfold save. rewrite Hfree.
    rewrite IH; rewrite <- app_assoc; [reflexivity | exact Hnd].
Qed.
End KeyedFacts.

(** ** Listings by date *)

Section ByDateFacts.
Context {A : Type}.
Variable date : A -> option string.

Lemma insertDesc_perm (x : A) (docs : list A) :
  Permutation (insertDesc date x docs) (x :: docs).
Proof.
  induction docs as [|d rest IH]; simpl; [reflexivity|].
  destruct (date_leb (date d) (date x)); [reflexivity|].
  rewrite IH. apply perm_swap.
Qed.

Lemma sortDesc_perm (docs : list A) : Permutation (sortDesc date docs) docs.
Proof.
  induction docs as [|d rest IH]; simpl; [reflexivity|].
  rewrite insertDesc_perm. now apply perm_skip.
Qed.

Lemma insertDesc_sorted (x : A) (docs : list A) :
  StronglySorted (newestFirst date) docs ->
  StronglySorted (newestFirst date) (insertDesc date x docs).
Proof.
  induction 1 as [|d rest Hrest IH Hd]; simpl.
  - repeat constructor.
  - destruct (date_leb (date d) (date x)) eqn:Hcmp.
    + constructor; [now constructor|].
      constructor; [exact Hcmp|].
      rewrite Forall_forall in *. intros y Hy.
      unfold newestFirst in *. eapply date_leb_trans; [apply Hd, Hy | exact Hcmp].
    + constructor; [exact IH|].
      rewrite Forall_forall in *. intros y Hy.
      apply (Permutation_in _ (insertDesc_perm x rest)) in Hy.
      destruct Hy as [<- | Hy]; [|now apply Hd].
      unfold newestFirst.
      destruct (date_leb_total (date x) (date d)); congruence.
Qed.

Lemma sortDesc_sorted (docs : list A) :
  StronglySorted (newestFirst date) (sortDesc date docs).
Proof.
  induction docs as [|d rest IH]; simpl; [constructor|].
  now apply insertDesc_sorted.
Qed.
End ByDateFacts.

(** ** The blog *)

Lemma holds_spec (path : option string) (value : string) :
  holds path value = true <-> path = Some value.
Proof.
  unfold holds. destruct path as [s|]; [|split; discriminate].
  rewrite String.eqb_eq. split; [now intros -> | now intros [= ->]].
Qed.

(** Both blog listings answer 200 with posts newest date first, dates
    compared as strings: [GET /api/blog] with a rearrangement of all stored
    posts, the category route with exactly the stored posts whose category
    is the requested one. *)
Theorem blog_listings_newest_first (category : string) (posts : list BlogPost.t) :
  (exists listed,
     get_api_blog posts = Json 200 listed /\
     Permutation listed posts /\
     StronglySorted (newestFirst BlogPost.date) listed) /\
  (exists listed,
     get_api_blog_category category posts = Json 200 listed /\
     (forall p, In p listed <-> In p posts /\ BlogPost.category p = Some category) /\
     StronglySorted (newestFirst BlogPost.date) listed).
Proof.
  split; eexists; (split; [reflexivity|]);
    (split; [|apply sortDesc_sorted]).
  - apply sortDesc_perm.
  - intros p. rewrite <- holds_spec.
    rewrite <- (filter_In (fun p => holds (BlogPost.category p) category)).
    split; apply Permutation_in; [|symmetry]; apply sortDesc_perm.
Qed.

(** Creating a post or a product under an [_id] that is already stored is
    answered 400 (not 500) and stores nothing. *)
Theorem create_duplicate_is_400
    (post : BlogBody) (product : ProductBody)
    (posts : list BlogPost.t) (products : list Product.t) (i : ObjectId) :
  (g__id post = Some i -> In i (map BlogPost._id posts) ->
   forall fresh, post_api_blog post fresh posts = (Error 400 duplicateKey, posts)) /\
  (p__id product = Some i -> In i (map Product._id products) ->
   forall fresh,
     post_api_products product fresh products = (Error 400 duplicateKey, products)).
Proof.
  split; intros Hid Hin fresh.
  - unfold post_api_blog, save. simpl. rewrite Hid.
    destruct (findById BlogPost._id i posts) eqn:Hf; [reflexivity|].
    apply findById_absent in Hf. contradiction.
  - unfold post_api_products, save. simpl. rewrite Hid.
    destruct (findById Product._id i products) eqn:Hf; [reflexivity|].
    apply findById_absent in Hf. contradiction.
Qed.

Lemma numbered_ids (fresh : nat -> ObjectId) (k : nat) (bodies : list BlogBody) :
  Forall (fun b => g__id b = None) bodies ->
  map BlogPost._id (numbered fresh k bodies) = map fresh (seq k (List.length bodies)).
Proof.
  intros H. revert k. induction H as [|b rest Hb _ IH]; intros k; simpl; [reflexivity|].
  rewrite Hb, IH. reflexivity.
Qed.

Lemma blogPosts_no_id : Forall (fun b => g__id b = None) blogPosts.
Proof. repeat constructor. Qed.

(** Seeding the blog replaces whatever was stored: when the six generated
    [_id]s are distinct, the answer is 200 with count 6 and the collection
    is the six seed posts, in the order of the array, whatever it held
    before. *)
Theorem blog_seed_replaces (fresh : nat -> ObjectId) (posts : list BlogPost.t) :
  NoDup (map fresh (seq 0 6)) ->
  post_api_seed_blog fresh posts
  = (Json 200 {| s_message := "Blog posts seeded successfully"; s_count := 6 |},
     numbered fresh 0 blogPosts) /\
  List.length (numbered fresh 0 blogPosts) = 6%nat /\
  map BlogPost.title (numbered fresh 0 blogPosts) = map g_title blogPosts.
Proof.
  intros Hnd. unfold post_api_seed_blog.
  rewrite insertMany_fresh.
  - repeat split.
  - rewrite app_nil_l, (numbered_ids fresh 0 blogPosts blogPosts_no_id). exact Hnd.
Qed.

Lemma serveBlog_NoDup (r : BlogRequest) (posts : list BlogPost.t) :
  NoDup (map BlogPost._id posts) -> NoDup (map BlogPost._id (serveBlog r posts)).
Proof.
  intros Hnd. destruct r as [body fresh | user i | fresh]; simpl.
  - unfold post_api_blog.
    destruct (save BlogPost._id _ posts) as [docs|] eqn:Hs; simpl; [|exact Hnd].
    now apply (save_keeps_NoDup BlogPost._id (newBlogPost body fresh) posts).
  - unfold delete_api_admin_blog_id, findByIdAndDelete.
    destruct (findById BlogPost._id i posts); simpl; [|exact Hnd].
    now apply deleteOne_keeps_NoDup.
  - unfold post_api_seed_blog.
    pose proof (insertMany_keeps_NoDup BlogPost._id (numbered fresh 0 blogPosts) []
                  (NoDup_nil _)) as H.
    destruct (insertMany BlogPost._id _ []) as [[|] docs]; exact H.
Qed.

(** Along every history of blog creations, deletions and seedings from the
    empty collection no two stored posts share an [_id], also when a
    creation brings its own [_id] or a seeding fails half way. *)
Theorem blog_ids_stay_distinct (history : list BlogRequest) :
  NoDup (map BlogPost._id (serveBlogAll history [])).
Proof.
  induction history as [|r history IH] using rev_ind; [constructor|].
  unfold serveBlogAll in *. rewrite fold_left_app. simpl.
  now apply serveBlog_NoDup.
Qed.

(** ** Products *)

(** A created product is in the 7m listing exactly when its category or
    its delivery time is ["7m"]; the listing then gains it at the end and
    is otherwise unchanged. *)
Theorem product_post_then_7m (body : ProductBody) (fresh : ObjectId)
    (products products' : list Product.t) (p : Product.t) (listed : list Product.t) :
  post_api_products body fresh products = (Json 201 p, products') ->
  get_api_products_7m products = Json 200 listed ->
  get_api_products products' = Json 200 (products ++ [p]) /\
  get_api_products_7m products'
  = Json 200 (if is7m p then listed ++ [p] else listed) /\
  (is7m p = true <->
   p_category body = Some "7m" \/ p_deliveryTime body = Some "7m").
Proof.
  unfold post_api_products, save, get_api_products_7m, get_api_products.
  destruct (findById Product._id _ products); [discriminate|].
  intros [= <- <-] [= <-].
  split; [reflexivity|]. split.
  - rewrite filter_app. simpl.
    destruct (is7m (newProduct body fresh)); [reflexivity | now rewrite app_nil_r].
  - unfold is7m. simpl. rewrite orb_true_iff, !holds_spec. reflexivity.
Qed.

(** Any caller can delete any stored product: exactly that product leaves
    the collection and both listings. *)
Theorem product_delete (user : Claims) (products : list Product.t) (p : Product.t) :
  NoDup (map Product._id products) ->
  In p products ->
  exists pre post,
    products = pre ++ p :: post /\
    delete_api_admin_products_id user (Product._id p) products
      = (Json 200 "Product deleted successfully", pre ++ post) /\
    get_api_products (pre ++ post) = Json 200 (pre ++ post) /\
    get_api_products_7m (pre ++ post)
      = Json 200 (filter is7m pre ++ filter is7m post) /\
    ~ In (Product._id p) (map Product._id (pre ++ post)).
Proof.
  intros Hnd Hin.
  pose proof (findById_In Product._id products p Hnd Hin) as Hfind.
  destruct (deleteOne_hit Product._id _ _ _ Hfind) as (pre & post & Hsplit & Hdel & _).
  exists pre, post. split; [exact Hsplit|].
  unfold delete_api_admin_products_id, findByIdAndDelete, get_api_products_7m.
  rewrite Hfind, Hdel, filter_app. repeat split.
  rewrite Hsplit, map_app in Hnd. simpl in Hnd.
  apply NoDup_remove_2 in Hnd. now rewrite map_app.
Qed.

(** ** Further instances *)

Lemma aliceOnly_counts : uniqueUserIds aliceOnly /\ orderCountsMatch aliceOnly.
Proof.
  split; [repeat constructor; intros []|].
  intros u [<- | []]. reflexivity.
Qed.

Lemma seededBlog_ids : NoDup (map demoIds (seq 0 6)).
Proof.
  repeat constructor; simpl; intuition discriminate.
Qed.

Lemma seededBlog_unique : NoDup (map BlogPost._id seededBlog).
Proof. exact seededBlog_ids. Qed.

Lemma twoProducts_unique : NoDup (map Product._id twoProducts).
Proof.
  repeat constructor; simpl; intuition discriminate.
Qed.


(** A reason sent along with ["Shipped"] is dropped. *)
Lemma other_status_keeps_records_witness :
  map Order.cancellationReason
      (db_orders (snd (put_api_orders_id alice "o1" shippedWithReason 3000%Z staleDb)))
    = map Order.cancellationReason (db_orders staleDb) /\
  map Order.cancellationReason
      (db_orders (snd (put_api_admin_orders_id alice "o1" shippedWithReason 3000%Z staleDb)))
    = map Order.cancellationReason (db_orders staleDb).
Proof.
  apply (other_status_keeps_records alice "o1" shippedWithReason 3000%Z staleDb).
  discriminate.
Defined.

Lemma order_data_as_created_witness :
  exists user body fresh,
    In (PostOrder user body fresh) staleHistory /\
    sameOrderData (newOrder (orderData body user) fresh) staleOrder /\
    Order.userId staleOrder = Some (c_userId user).
Proof.
  apply (order_data_as_created staleHistory staleOrder).
  left. reflexivity.
Defined.

Lemma order_counts_stay_in_step_witness :
  uniqueUserIds (serveAll staleHistory aliceOnly) /\
  orderCountsMatch (serveAll staleHistory aliceOnly).
Proof.
  apply (order_counts_stay_in_step staleHistory aliceOnly).
  - exact (proj1 aliceOnly_counts).
  - exact (proj2 aliceOnly_counts).
Defined.

Lemma records_are_never_cleared_witness :
  exists o',
    In o' (db_orders (serveAll [AdminPutOrder bob "o1" shippedWithReason 3000%Z] staleDb)) /\
    Order._id o' = Order._id staleOrder /\
    Order.cancellationReason o' <> None.
Proof.
  apply (records_are_never_cleared [AdminPutOrder bob "o1" shippedWithReason 3000%Z]
           staleDb staleOrder).
  - left. reflexivity.
  - discriminate.
Defined.

Lemma created_order_is_listed_witness :
  (exists listed,
     get_api_orders alice (snd (post_api_orders alice pendingOrder "o1" aliceOnly))
       = (Json 200 listed, snd (post_api_orders alice pendingOrder "o1" aliceOnly)) /\
     In aliceOrder listed) /\
  fst (get_api_orders bob (snd (post_api_orders alice pendingOrder "o1" aliceOnly)))
    = fst (get_api_orders bob aliceOnly).
Proof.
  apply (created_order_is_listed alice bob pendingOrder "o1" aliceOnly).
  - reflexivity.
  - discriminate.
Defined.

Lemma bearer_scheme_is_not_checked_witness :
  bearerToken (Some ("Basic" ++ " " ++ "carol.token")%string) = Some "carol.token".
Proof.
  apply (bearer_scheme_is_not_checked "Basic" "carol.token").
  - reflexivity.
  - reflexivity.
  - discriminate.
Defined.

Lemma unset_secret_falls_back_witness :
  jwt_verify demo_hmac
    (jwt_sign demo_hmac "u1" "alice@x.com" "your-secret-key" expiresIn_24h 0%Z)
    (JWT_SECRET (Some "")) 5000%Z
  = inr {| c_userId := "u1"; c_email := "alice@x.com";
           c_iat := clockTimestamp 0%Z; c_exp := (clockTimestamp 0%Z + 24 * 3600)%Z |}.
Proof.
  apply (unset_secret_falls_back (Some "") demo_hmac "u1" "alice@x.com" 0%Z 5000%Z).
  - right. reflexivity.
  - reflexivity.
Defined.

Lemma expired_token_is_turned_away_witness :
  protected None demo_hmac demo_parse (Some "Bearer carol.token") 86401000%Z
    get_api_user aliceOnly
  = (Error 403 "Invalid or expired token", aliceOnly).
Proof.
  apply (expired_token_is_turned_away None demo_hmac demo_parse
           "Bearer carol.token" "carol.token" "u3" "carol@x.com" 1500%Z 86401000%Z).
  - reflexivity.
  - reflexivity.
  - vm_compute. discriminate.
Defined.

Lemma profile_update_is_confined_witness :
  exists u' pre post,
    db_users aliceOnly = pre ++ aliceDoc :: post /\
    put_api_user alice renameBody aliceOnly
      = (Json 200 (Some (selectWithoutPassword u')),
         withUsers aliceOnly (pre ++ u' :: post)) /\
    User._id u' = User._id aliceDoc /\
    User.email u' = User.email aliceDoc /\
    User.password u' = User.password aliceDoc /\
    User.orders u' = User.orders aliceDoc /\
    User.createdAt u' = User.createdAt aliceDoc.
Proof.
  apply (profile_update_is_confined alice renameBody aliceOnly aliceDoc).
  reflexivity.
Defined.

Lemma register_twice_conflict_witness :
  post_api_register None demo_hmac demo_hash carolAgain "u4" "" 9000%Z
    (snd (post_api_register None demo_hmac demo_hash carolBody "u3" "" 1500%Z aliceOnly))
  = (Error 400 "User already exists with this email",
     snd (post_api_register None demo_hmac demo_hash carolBody "u3" "" 1500%Z aliceOnly)).
Proof.
  eapply (register_twice_conflict None demo_hmac demo_hash carolBody carolAgain
            "u3" "u4" "" "" 1500%Z 9000%Z aliceOnly).
  - reflexivity.
  - reflexivity.
Defined.

Lemma new_password_logs_in_witness :
  exists a,
    post_api_login None demo_hmac demo_compare
      {| l_email := User.email carolDoc; l_password := newPassword rightPassword |}
      7000%Z
      (snd (put_api_user_password demo_hash demo_compare carol rightPassword "" carolDb))
    = (Json 200 a,
       snd (put_api_user_password demo_hash demo_compare carol rightPassword "" carolDb)) /\
    pu_id (a_user a) = User._id carolDoc.
Proof.
  apply (new_password_logs_in None demo_hmac demo_hash demo_compare demo_compare_hash
           carol rightPassword "" 7000%Z carolDb).
  - reflexivity.
  - reflexivity.
  - reflexivity.
Defined.

Lemma blog_seed_replaces_witness :
  post_api_seed_blog demoIds [newBlogPost draftPost "b9"]
  = (Json 200 {| s_message := "Blog posts seeded successfully"; s_count := 6 |},
     numbered demoIds 0 blogPosts) /\
  List.length (numbered demoIds 0 blogPosts) = 6%nat /\
  map BlogPost.title (numbered demoIds 0 blogPosts) = map g_title blogPosts.
Proof.
  apply (blog_seed_replaces demoIds [newBlogPost draftPost "b9"]).
  exact seededBlog_ids.
Defined.

Lemma product_post_then_7m_witness :
  get_api_products [keyboard; charger] = Json 200 ([keyboard] ++ [charger]) /\
  get_api_products_7m [keyboard; charger]
    = Json 200 (if is7m charger then [] ++ [charger] else []) /\
  (is7m charger = true <->
   p_category chargerBody = Some "7m" \/ p_deliveryTime chargerBody = Some "7m").
Proof.
  apply (product_post_then_7m chargerBody "p1" [keyboard] [keyboard; charger] charger []).
  - reflexivity.
  - reflexivity.
Defined.

Lemma product_delete_witness :
  exists pre post,
    twoProducts = pre ++ charger :: post /\
    delete_api_admin_products_id bob (Product._id charger) twoProducts
      = (Json 200 "Product deleted successfully", pre ++ post) /\
    get_api_products (pre ++ post) = Json 200 (pre ++ post) /\
    get_api_products_7m (pre ++ post)
      = Json 200 (filter is7m pre ++ filter is7m post) /\
    ~ In (Product._id charger) (map Product._id (pre ++ post)).
Proof.
  apply (product_delete bob twoProducts charger).
  - exact twoProducts_unique.
  - right. left. reflexivity.
Defined.

Lemma create_duplicate_is_400_witness :
  post_api_blog clashPost "b7" seededBlog = (Error 400 duplicateKey, seededBlog) /\
  post_api_products clashProduct "p7" twoProducts = (Error 400 duplicateKey, twoProducts).
Proof.
  split.
  - apply (proj1 (create_duplicate_is_400 clashPost clashProduct seededBlog twoProducts "b0")).
    + reflexivity.
    + left. reflexivity.
  - apply (proj2 (create_duplicate_is_400 clashPost clashProduct seededBlog twoProducts "p1")).
    + reflexivity.
    + right. left. reflexivity.
Defined.

(** * Requests before the cast *)

Lemma lowerAll_hex_ids :
  hexObjectId "65A1B2C3D4E5F60718293B02" = Some "65a1b2c3d4e5f60718293b02" /\
  hexObjectId danaId = Some danaId /\
  hexObjectId goneId = Some goneId /\
  hexObjectId "o9" = None.
Proof. repeat split. Qed.

Section CastFacts.
Variable castObjectId : string -> option ObjectId.
Variable castMessage : string -> string.

Local Abbreviation createOrder := (route_post_api_orders castObjectId castMessage).
Local Abbreviation putOrder := (route_put_api_orders_id castObjectId castMessage).
Local Abbreviation adminPutOrder := (route_put_api_admin_orders_id castObjectId castMessage).
Local Abbreviation getUser := (route_get_api_user castObjectId castMessage).
Local Abbreviation putUser := (route_put_api_user castObjectId castMessage).
Local Abbreviation postBlog := (route_post_api_blog castObjectId castMessage).
Local Abbreviation getBlog := (route_get_api_blog_id castObjectId castMessage).
Local Abbreviation deleteBlog := (route_delete_api_admin_blog_id castObjectId castMessage).
Local Abbreviation deleteProduct :=
  (route_delete_api_admin_products_id castObjectId castMessage).

Lemma castOrderData_userId (raw data : OrderBody) :
  castOrderData castObjectId raw = Some data -> n_userId data = n_userId raw.
Proof.
  unfold castOrderData.
  destruct (match n__id raw with
            | Some text => option_map Some (castObjectId text)
            | None => Some None
            end); [|discriminate].
  destruct (match n_cancellationReason raw with
            | Some {| cancelledAt := Some d |} => validDate d
            | _ => true
            end); [|discriminate].
  now intros [= <-].
Qed.

(** A body whose [_id] is no ObjectId, or whose [cancelledAt] is no date,
    is answered 500: nothing is stored and no count moves. *)
Lemma create_order_rejected (user : Claims) (body : OrderBody) (fresh : ObjectId)
    (db : Db) :
  castOrderData castObjectId (orderData body user) = None ->
  createOrder user body fresh db = (Error 500 (orderCastMessage castMessage body), db).
Proof. intros H. unfold route_post_api_orders. now rewrite H. Qed.

(** C3.  An order creation whose body casts (its [_id], when it has one,
    is an ObjectId and its [cancelledAt], when it has one, a date), under
    an [_id] the store does not hold yet, by a caller [U] whose token
    [userId] is the [_id] of the user document [u]: the answer is 201 with
    the order, the [orders] collection afterwards is the old one with that
    order at the end, the order's [userId] is [U] whatever [userId] the body
    carried, and in the [users] collection [u] is replaced by [u] with
    [orders] one higher while no other document changes. *)
Theorem create_order_owner_and_count
    (user : Claims) (body data : OrderBody) (fresh uid : ObjectId) (db : Db)
    (u : User.t) :
  castOrderData castObjectId (orderData body user) = Some data ->
  (forall d, In d (db_orders db) -> Order._id d <> newOrderId data fresh) ->
  castObjectId (c_userId user) = Some uid ->
  findUserById uid (db_users db) = Some u ->
  exists o pre post,
    fst (createOrder user body fresh db) = Json 201 o /\
    db_orders (snd (createOrder user body fresh db)) = db_orders db ++ [o] /\
    Order._id o = newOrderId data fresh /\
    Order.userId o = Some (c_userId user) /\
    db_users db = pre ++ u :: post /\
    db_users (snd (createOrder user body fresh db)) = pre ++ incOrders u :: post /\
    User._id u = uid /\
    User._id (incOrders u) = User._id u /\
    User.orders (incOrders u) = (User.orders u + 1)%Z.
Proof.
  intros Hcast Hfree Huid Hu.
  destruct (updateOne_hit _ incOrders _ _ Hu) as (pre & post & Hsplit & Hupd & Hid & _).
  exists (newOrder data fresh), pre, post.
  unfold route_post_api_orders. rewrite Hcast.
  change (Order._id (newOrder data fresh)) with (newOrderId data fresh).
  rewrite (findOrderById_free _ _ Hfree), Huid.
  unfold findOneAndUpdate. simpl.
  unfold findUserById in Hu. rewrite Hu. simpl.
  repeat split; auto.
  - now rewrite (castOrderData_userId _ _ Hcast).
  - now apply String.eqb_eq in Hid.
Qed.

(** C9, at a caller whose token [userId] is an ObjectId that no user
    document has: reading the profile answers 404, updating it answers 200
    with a [null] body; neither changes the database. *)
Theorem update_profile_missing_user_answers_200
    (user : Claims) (body : ProfileBody) (db : Db) (i : ObjectId) :
  castObjectId (c_userId user) = Some i ->
  (forall u, In u (db_users db) -> User._id u <> i) ->
  getUser user db = (Error 404 "User not found", db) /\
  putUser user body db = (Json 200 None, db).
Proof.
  intros Hcast Habs.
  pose proof (findUserById_free _ _ Habs) as Hfind.
  unfold route_get_api_user, route_put_api_user. rewrite Hcast, Hfind.
  split; [reflexivity|].
  unfold findOneAndUpdate. unfold findUserById in Hfind. rewrite Hfind. simpl.
  now rewrite withUsers_same.
Qed.

(** A status update whose [:id] is an ObjectId that no stored order has
    answers 404 on both routes; one whose [:id] is no ObjectId answers 500;
    either way the database stays as it was. *)
Theorem update_unknown_order_not_found
    (user : Claims) (id : string) (body : OrderStatusBody) (now : Date) (db : Db) :
  (forall i,
     castObjectId id = Some i ->
     (forall d, In d (db_orders db) -> Order._id d <> i) ->
     putOrder user id body now db = (Error 404 "Order not found", db) /\
     adminPutOrder user id body now db = (Error 404 "Order not found", db)) /\
  (castObjectId id = None ->
   putOrder user id body now db = (Error 500 (castMessage id), db) /\
   adminPutOrder user id body now db = (Error 500 (castMessage id), db)).
Proof.
  unfold route_put_api_orders_id, route_put_api_admin_orders_id.
  split.
  - intros i Hcast Habs. rewrite Hcast. split.
    + unfold put_api_orders_id, findOneAndUpdate.
      rewrite (findOne_absent_id i); auto. intros d. apply ownedBy_id.
    + unfold put_api_admin_orders_id, findOneAndUpdate.
      rewrite (findOne_absent_id i); auto. intros d. apply String.eqb_eq.
  - intros Hcast. now rewrite Hcast.
Qed.

(** A post whose body casts, created under an [_id] the store does not
    hold, is answered 201 and goes last in the collection;
    [GET /api/blog/:id] then answers 200 with that post for every spelling
    of its [_id], and answers as before for every other [:id], an [:id]
    that is no ObjectId included. *)
Theorem blog_post_then_get (body data : BlogBody) (fresh : ObjectId)
    (posts : list BlogPost.t) :
  castBlogBody castObjectId body = Some data ->
  let p := newBlogPost data fresh in
  (forall q, In q posts -> BlogPost._id q <> BlogPost._id p) ->
  postBlog body fresh posts = (Json 201 p, posts ++ [p]) /\
  (forall j, castObjectId j = Some (BlogPost._id p) ->
     getBlog j (posts ++ [p]) = Json 200 p) /\
  (forall j, castObjectId j <> Some (BlogPost._id p) ->
     getBlog j (posts ++ [p]) = getBlog j posts).
Proof.
  intros Hcast p Hfree.
  assert (Hnone : findById BlogPost._id (BlogPost._id p) posts = None).
  { apply findById_absent. intros Hin. apply in_map_iff in Hin.
    destruct Hin as (q & Hq & Hin). now elim (Hfree q Hin). }
  destruct (save_then_find BlogPost._id p posts Hnone) as (Hsave & Hget & Hother).
  unfold route_post_api_blog, route_get_api_blog_id. rewrite Hcast.
  unfold post_api_blog, get_api_blog_id. fold p. rewrite Hsave.
  split; [reflexivity|]. split.
  - intros j Hj. now rewrite Hj, Hget.
  - intros j Hj. destruct (castObjectId j) as [k|]; [|reflexivity].
    rewrite Hother; [reflexivity|]. intros ->. now elim Hj.
Qed.

(** Any caller can delete any stored post, by any spelling of its [_id]:
    the answer is 200, exactly that post leaves the collection,
    [GET /api/blog/:id] then answers 404 for every spelling of that [_id]
    and as before for every other [:id]. *)
Theorem blog_delete_then_get (user : Claims) (id : string)
    (posts : list BlogPost.t) (p : BlogPost.t) :
  NoDup (map BlogPost._id posts) ->
  In p posts ->
  castObjectId id = Some (BlogPost._id p) ->
  exists pre post,
    posts = pre ++ p :: post /\
    deleteBlog user id posts = (Json 200 "Blog post deleted successfully", pre ++ post) /\
    (forall j, castObjectId j = Some (BlogPost._id p) ->
       getBlog j (pre ++ post) = Error 404 "Blog post not found") /\
    (forall j, castObjectId j <> Some (BlogPost._id p) ->
       getBlog j (pre ++ post) = getBlog j posts).
Proof.
  intros Hnd Hin Hcast.
  pose proof (findById_In BlogPost._id posts p Hnd Hin) as Hfind.
  destruct (deleteOne_hit BlogPost._id _ _ _ Hfind) as (pre & post & Hsplit & Hdel & _).
  destruct (delete_then_find BlogPost._id (BlogPost._id p) posts Hnd) as [Hgone Hother].
  rewrite Hdel in Hgone, Hother.
  exists pre, post. split; [exact Hsplit|].
  unfold route_delete_api_admin_blog_id, route_get_api_blog_id. rewrite Hcast.
  unfold delete_api_admin_blog_id, findByIdAndDelete, get_api_blog_id.
  rewrite Hfind, Hdel. split; [reflexivity|]. split.
  - intros j Hj. now rewrite Hj, Hgone.
  - intros j Hj. destruct (castObjectId j) as [k|]; [|reflexivity].
    rewrite Hother; [reflexivity|]. intros ->. now elim Hj.
Qed.

(** Deleting by an [:id] that is an ObjectId no stored document has is
    answered 404 by both admin delete routes, by an [:id] that is no
    ObjectId 500; either way the collection stays as it was. *)
Theorem delete_unknown_is_404 (user : Claims) (id : string)
    (posts : list BlogPost.t) (products : list Product.t) :
  (forall i, castObjectId id = Some i -> ~ In i (map BlogPost._id posts) ->
     deleteBlog user id posts = (Error 404 "Blog post not found", posts)) /\
  (forall i, castObjectId id = Some i -> ~ In i (map Product._id products) ->
     deleteProduct user id products = (Error 404 "Product not found", products)) /\
  (castObjectId id = None ->
   deleteBlog user id posts = (Error 500 (castMessage id), posts) /\
   deleteProduct user id products = (Error 500 (castMessage id), products)).
Proof.
  unfold route_delete_api_admin_blog_id, route_delete_api_admin_products_id.
  split; [|split].
  - intros i Hcast Hnot. rewrite Hcast.
    unfold delete_api_admin_blog_id, findByIdAndDelete.
    now rewrite (proj2 (findById_absent BlogPost._id i posts) Hnot).
  - intros i Hcast Hnot. rewrite Hcast.
    unfold delete_api_admin_products_id, findByIdAndDelete.
    now rewrite (proj2 (findById_absent Product._id i products) Hnot).
  - intros Hcast. now rewrite Hcast.
Qed.
End CastFacts.

(** ** Instances *)

Lemma hexBlog_unique : NoDup (map BlogPost._id hexBlog).
Proof. repeat constructor; simpl; intuition discriminate. Qed.


Example staleHistory_last_served_cancel :
  lastServedCancel staleHistory emptyDb "o1" None
  = Some {| reason := Some "r"; comment := Some "c"; cancelledAt := Some 1000%Z |}.
Proof. reflexivity. Qed.

(** C6 does not hold as worded.  A token issued at 1500 ms is refused as
    expired at 86401000 ms, half a second before 24 hours have passed. *)
Lemma token_expires_within_24h :
  (1500 <= 86401000 < 1500 + 24 * 3600 * 1000)%Z /\
  jwt_verify demo_hmac
    (jwt_sign demo_hmac "u3" "carol@x.com" (JWT_SECRET None) expiresIn_24h 1500%Z)
    (JWT_SECRET None) 86401000%Z
  = inl TokenExpiredError.
Proof. split; [lia | reflexivity]. Qed.

(** The same token one millisecond earlier, and from that instant on. *)
Lemma token_valid_until_expiry_second_witness :
  jwt_verify demo_hmac
    (jwt_sign demo_hmac "u3" "carol@x.com" (JWT_SECRET None) expiresIn_24h 1500%Z)
    (JWT_SECRET None) 86400999%Z
  = inr {| c_userId := "u3"; c_email := "carol@x.com";
           c_iat := clockTimestamp 1500%Z;
           c_exp := (clockTimestamp 1500%Z + 24 * 3600)%Z |} /\
  jwt_verify demo_hmac
    (jwt_sign demo_hmac "u3" "carol@x.com" (JWT_SECRET None) expiresIn_24h 1500%Z)
    (JWT_SECRET None) 86401000%Z
  = inl TokenExpiredError.
Proof.
  split.
  - pose proof (token_valid_until_expiry_second None demo_hmac "u3" "carol@x.com"
                  1500%Z 86400999%Z) as H.
    cbv zeta in H. destruct H as (H & _). apply H.
    apply Z.ltb_lt. reflexivity.
  - pose proof (token_valid_until_expiry_second None demo_hmac "u3" "carol@x.com"
                  1500%Z 86401000%Z) as H.
    cbv zeta in H. destruct H as (_ & H & _). apply H.
    apply Z.leb_le. reflexivity.
Defined.

(** Dana creates an order whose body says it is somebody else's and
    spells its [_id] in upper case. *)
Lemma create_order_owner_and_count_witness :
  exists o pre post,
    fst (route_post_api_orders hexObjectId demo_message dana upperCaseOrder orderId1 danaDb)
      = Json 201 o /\
    db_orders
      (snd (route_post_api_orders hexObjectId demo_message dana upperCaseOrder orderId1 danaDb))
      = db_orders danaDb ++ [o] /\
    Order._id o = newOrderId upperCaseOrderData orderId1 /\
    Order.userId o = Some (c_userId dana) /\
    db_users danaDb = pre ++ danaDoc :: post /\
    db_users
      (snd (route_post_api_orders hexObjectId demo_message dana upperCaseOrder orderId1 danaDb))
      = pre ++ incOrders danaDoc :: post /\
    User._id danaDoc = danaId /\
    User._id (incOrders danaDoc) = User._id danaDoc /\
    User.orders (incOrders danaDoc) = (User.orders danaDoc + 1)%Z.
Proof.
  apply (create_order_owner_and_count hexObjectId demo_message dana upperCaseOrder
           upperCaseOrderData orderId1 danaId danaDb danaDoc).
  - reflexivity.
  - intros d [<- | []]. discriminate.
  - reflexivity.
  - reflexivity.
Defined.

(** Bodies that do not cast are turned away with nothing stored. *)
Example create_order_rejected_examples :
  route_post_api_orders hexObjectId demo_message dana malformedIdOrder orderId1 danaDb
    = (Error 500 (demo_message "o9"), danaDb) /\
  statusCode
    (fst (route_post_api_orders hexObjectId demo_message dana farDateOrder orderId1 danaDb))
    = 500%Z /\
  snd (route_post_api_orders hexObjectId demo_message dana farDateOrder orderId1 danaDb)
    = danaDb.
Proof. repeat split. Qed.

(** A token for a user whose document is gone. *)
Lemma update_profile_missing_user_answers_200_witness :
  route_get_api_user hexObjectId demo_message gone danaDb
    = (Error 404 "User not found", danaDb) /\
  route_put_api_user hexObjectId demo_message gone renameBody danaDb
    = (Json 200 None, danaDb).
Proof.
  apply (update_profile_missing_user_answers_200 hexObjectId demo_message
           gone renameBody danaDb goneId).
  - reflexivity.
  - intros u [<- | []]. discriminate.
Defined.

(** An ObjectId nobody's order has, and a text that is no ObjectId. *)
Lemma update_unknown_order_not_found_witness :
  (route_put_api_orders_id hexObjectId demo_message dana "65A1B2C3D4E5F60718293B0F"
     cancelBody 1000%Z danaDb
   = (Error 404 "Order not found", danaDb) /\
   route_put_api_admin_orders_id hexObjectId demo_message dana "65A1B2C3D4E5F60718293B0F"
     cancelBody 1000%Z danaDb
   = (Error 404 "Order not found", danaDb)) /\
  (route_put_api_orders_id hexObjectId demo_message dana "o9" cancelBody 1000%Z danaDb
   = (Error 500 (demo_message "o9"), danaDb) /\
   route_put_api_admin_orders_id hexObjectId demo_message dana "o9" cancelBody 1000%Z danaDb
   = (Error 500 (demo_message "o9"), danaDb)).
Proof.
  split.
  - apply (proj1 (update_unknown_order_not_found hexObjectId demo_message dana
                    "65A1B2C3D4E5F60718293B0F" cancelBody 1000%Z danaDb)
             "65a1b2c3d4e5f60718293b0f").
    + reflexivity.
    + intros d [<- | []]. discriminate.
  - apply (proj2 (update_unknown_order_not_found hexObjectId demo_message dana
                    "o9" cancelBody 1000%Z danaDb)).
    reflexivity.
Defined.

Lemma blog_post_then_get_witness :
  let p := newBlogPost upperCasePostData "65a1b2c3d4e5f60718293c0b" in
  route_post_api_blog hexObjectId demo_message upperCasePost "65a1b2c3d4e5f60718293c0b" hexBlog
    = (Json 201 p, hexBlog ++ [p]) /\
  (forall j, hexObjectId j = Some (BlogPost._id p) ->
     route_get_api_blog_id hexObjectId demo_message j (hexBlog ++ [p]) = Json 200 p) /\
  (forall j, hexObjectId j <> Some (BlogPost._id p) ->
     route_get_api_blog_id hexObjectId demo_message j (hexBlog ++ [p])
     = route_get_api_blog_id hexObjectId demo_message j hexBlog).
Proof.
  apply (blog_post_then_get hexObjectId demo_message upperCasePost upperCasePostData
           "65a1b2c3d4e5f60718293c0b" hexBlog).
  - reflexivity.
  - intros q Hq. unfold hexBlog in Hq. simpl in Hq.
    repeat (destruct Hq as [<- | Hq]; [discriminate|]). contradiction.
Defined.

Lemma blog_delete_then_get_witness :
  exists pre post,
    hexBlog = pre ++ hexFirstPost :: post /\
    route_delete_api_admin_blog_id hexObjectId demo_message dana
      "65A1B2C3D4E5F60718293C00" hexBlog
      = (Json 200 "Blog post deleted successfully", pre ++ post) /\
    (forall j, hexObjectId j = Some (BlogPost._id hexFirstPost) ->
       route_get_api_blog_id hexObjectId demo_message j (pre ++ post)
       = Error 404 "Blog post not found") /\
    (forall j, hexObjectId j <> Some (BlogPost._id hexFirstPost) ->
       route_get_api_blog_id hexObjectId demo_message j (pre ++ post)
       = route_get_api_blog_id hexObjectId demo_message j hexBlog).
Proof.
  apply (blog_delete_then_get hexObjectId demo_message dana
           "65A1B2C3D4E5F60718293C00" hexBlog hexFirstPost).
  - exact hexBlog_unique.
  - left. reflexivity.
  - reflexivity.
Defined.

Lemma delete_unknown_is_404_witness :
  route_delete_api_admin_blog_id hexObjectId demo_message dana
    "65a1b2c3d4e5f60718293cff" hexBlog
    = (Error 404 "Blog post not found", hexBlog) /\
  route_delete_api_admin_products_id hexObjectId demo_message dana
    "65a1b2c3d4e5f60718293cff" hexProducts
    = (Error 404 "Product not found", hexProducts) /\
  route_delete_api_admin_blog_id hexObjectId demo_message dana "zz" hexBlog
    = (Error 500 (demo_message "zz"), hexBlog).
Proof.
  split; [|split].
  - apply (proj1 (delete_unknown_is_404 hexObjectId demo_message dana
                    "65a1b2c3d4e5f60718293cff" hexBlog hexProducts)
             "65a1b2c3d4e5f60718293cff").
    + reflexivity.
    + simpl. intuition discriminate.
  - apply (proj1 (proj2 (delete_unknown_is_404 hexObjectId demo_message dana
                    "65a1b2c3d4e5f60718293cff" hexBlog hexProducts))
             "65a1b2c3d4e5f60718293cff").
    + reflexivity.
    + simpl. intuition discriminate.
  - apply (proj2 (proj2 (delete_unknown_is_404 hexObjectId demo_message dana
                    "zz" hexBlog hexProducts))).
    reflexivity.
Defined.
